(** * drf_simple_shop: user manager and user serializers

    A shallow embedding of [users/managers/users.py] (CustomUserManager) and
    [users/serializers/api/users.py] (the user serializers), with the
    properties of the account-management glue code stated over it.

    Conventions of the embedding:
    - a Python [str] is a Rocq [string] whose characters are the code points
      U+0000..U+00FF;
    - an [Optional[str]] argument is an [option string]; Python truthiness
      is written out ([opt_truthy], [truthy]);
    - a model instance and a [dict] are finite maps from attribute (key)
      names to values ([gmap string pyval], [gmap string string]);
    - a raised exception is the [Err] result of a computation in the
      database monad [M]; the database is threaded explicitly. *)

From Stdlib Require Import String Ascii ZArith Bool.
From stdpp Require Import gmap strings list fin_maps.

Local Open Scope string_scope.

(** ** Python string built-ins used by the code *)

Module PyStr.

(** [c.isspace()] on U+0000..U+00FF: the characters [str.strip()] removes. *)
Definition is_space (c : ascii) : bool :=
  let n := nat_of_ascii c in
  (((9 <=? n) && (n <=? 13)) || ((28 <=? n) && (n <=? 32))
   || (n =? 133) || (n =? 160))%nat.

(** [c.lower()] on U+0000..U+00FF: A-Z and the Latin-1 capitals
    U+00C0..U+00DE (without the multiplication sign U+00D7) move up by 32. *)
Definition lower_char (c : ascii) : ascii :=
  let n := nat_of_ascii c in
  if (((65 <=? n) && (n <=? 90))
      || ((192 <=? n) && (n <=? 222) && negb (n =? 215)))%nat
  then ascii_of_nat (n + 32) else c.

(** [s.lower()] *)
Fixpoint lower (s : string) : string :=
  match s with
  | EmptyString => EmptyString
  | String c r => String (lower_char c) (lower r)
  end.

Definition is_at (c : ascii) : bool := Ascii.eqb c "@"%char.

(** ['@' in s] *)
Fixpoint contains_at (s : string) : bool :=
  match s with
  | EmptyString => false
  | String c r => is_at c || contains_at r
  end.

(** [s.split('@')[0]]: the text before the first ['@'], all of [s] when
    there is none. *)
Fixpoint before_at (s : string) : string :=
  match s with
  | EmptyString => EmptyString
  | String c r => if is_at c then EmptyString else String c (before_at r)
  end.

(** [s.rsplit('@', 1)] when it has two parts: the text before and after
    the last ['@']; [None] when [s] has no ['@'] (a one-element list). *)
Fixpoint rsplit_at (s : string) : option (string * string) :=
  match s with
  | EmptyString => None
  | String c r =>
      match rsplit_at r with
      | Some (a, b) => Some (String c a, b)
      | None => if is_at c then Some (EmptyString, r) else None
      end
  end.

Fixpoint lstrip (s : string) : string :=
  match s with
  | EmptyString => EmptyString
  | String c r => if is_space c then lstrip r else s
  end.

Fixpoint rstrip (s : string) : string :=
  match s with
  | EmptyString => EmptyString
  | String c r =>
      match rstrip r with
      | EmptyString => if is_space c then EmptyString else String c EmptyString
      | r' => String c r'
      end
  end.

(** [s.strip()] *)
Definition strip (s : string) : string := rstrip (lstrip s).

Definition nonempty (s : string) : bool :=
  match s with EmptyString => false | String _ _ => true end.

End PyStr.

Import PyStr.

(** ** Python values and truthiness *)

Inductive pyval : Type :=
| VNone
| VBool (b : bool)
| VInt (z : Z)
| VStr (s : string).

#[global] Instance pyval_eq_dec : EqDecision pyval.
Proof. solve_decision. Defined.

(** [bool(v)] *)
Definition truthy (v : pyval) : bool :=
  match v with
  | VNone => false
  | VBool b => b
  | VInt z => negb (z =? 0)%Z
  | VStr s => nonempty s
  end.

(** [bool(o)] for an [Optional[str]] *)
Definition opt_truthy (o : option string) : bool :=
  match o with
  | Some s => nonempty s
  | None => false
  end.

(** [a or b] on [Optional[str]] operands *)
Definition py_or (a b : option string) : option string :=
  if opt_truthy a then a else b.

(** [d.setdefault(k, v)] *)
Definition setdefault {V} (k : string) (v : V) (d : gmap string V)
  : gmap string V :=
  match d !! k with
  | Some _ => d
  | None => <[k := v]> d
  end.

(** ** Framework pieces the code calls *)

(** Django's [BaseUserManager.normalize_email]:
<<
    email = email or ""
    try:
        email_name, domain_part = email.strip().rsplit("@", 1)
    except ValueError:
        pass
    else:
        email = email_name + "@" + domain_part.lower()
    return email
>>
    Only the domain part is lowercased; without an ['@'] the address is
    returned as it came (not even stripped). *)
Definition normalize_email (email : option string) : string :=
  let email := match py_or email (Some "") with Some e => e | None => "" end in
  match rsplit_at (strip email) with
  | Some (email_name, domain_part) =>
      email_name ++ "@" ++ lower domain_part
  | None => email
  end.

(** ** Exceptions, the database and the monad of the code *)

Inductive exn : Type :=
| ParseError (detail : string)      (* rest_framework.exceptions.ParseError, HTTP 400 *)
| ValidationError                   (* rest_framework / django ValidationError *)
| ValueError (detail : string)
| TypeError
| KeyError (key : string)
| AttributeError (name : string)
| IntegrityError                    (* django.db.IntegrityError *)
| DoesNotExist.                     (* RelatedObjectDoesNotExist *)

Inductive result (A : Type) : Type :=
| Ok (a : A)
| Err (e : exn).
Arguments Ok {A} a.
Arguments Err {A} e.

(** A model instance: attribute name to value. *)
Abbreviation Row := (gmap string pyval).

(** The two tables the code touches, by primary key; a profile is keyed by
    the primary key of its user (one-to-one). *)
Record DB : Type := mkDB {
  users : gmap Z Row;
  profiles : gmap Z Row
}.

(** A computation reads and writes the database and returns or raises.
    Outside [atomic] every write is committed as it is made (autocommit), so
    the database after a raise is the one the raise found. *)
Definition M (A : Type) : Type := DB -> result A * DB.

#[global] Instance M_ret : MRet M := fun A a db => (Ok a, db).

#[global] Instance M_bind : MBind M := fun A B f m db =>
  match m db with
  | (Ok a, db') => f a db'
  | (Err e, db') => (Err e, db')
  end.

Definition raise {A} (e : exn) : M A := fun db => (Err e, db).

(** [with transaction.atomic(): body]: the writes of [body] are committed
    when it returns and undone when it raises; the exception goes on. *)
Definition atomic {A} (body : M A) : M A := fun db =>
  match body db with
  | (Ok a, db') => (Ok a, db')
  | (Err e, _) => (Err e, db)
  end.

(** Whether a run returned, and what it returned ([d] when it raised). *)
Definition is_ok {A} (r : result A * DB) : bool :=
  match fst r with Ok _ => true | Err _ => false end.

Definition returned {A} (d : A) (r : result A * DB) : A :=
  match fst r with Ok a => a | Err _ => d end.

(** [d.pop(k)] *)
Definition dict_pop {V} (k : string) (d : gmap string V)
  : M (V * gmap string V) :=
  match d !! k with
  | Some v => mret (v, delete k d)
  | None => raise (KeyError k)
  end.

(** [d.get(k)] *)
Definition dict_get (k : string) (d : Row) : pyval := default VNone (d !! k).

(** [obj.name] *)
Definition getattr (obj : Row) (name : string) : M pyval :=
  match obj !! name with
  | Some v => mret v
  | None => raise (AttributeError name)
  end.

(** The primary key an INSERT hands out. *)
Definition next_id (t : gmap Z Row) : Z :=
  map_fold (fun k _ acc => Z.max acc (k + 1)) 1%Z t.

(** [User.objects.filter(email=email).exists()] *)
Definition email_exists (email : string) (db : DB) : bool :=
  bool_decide (map_Exists (fun _ u => u !! "email" = Some (VStr email)) (users db)).

(** What [UserUpdateSerializer] hands to [update]: the validated user
    fields, and under the key ['profile'] the nested profile data, which
    [validated_data.pop('profile', None)] takes out. *)
Record UpdateData : Type := mkUpdateData {
  ud_fields : Row;
  ud_profile : option Row
}.

(** [bool(d)] for an optional [dict] *)
Definition dict_truthy (d : option Row) : bool :=
  match d with
  | Some r => negb (bool_decide (r = ∅))
  | None => false
  end.

(** ** The user model ([users/models/users.py] over Django's AbstractUser) *)

Module User.
Section Model.

(** The default of every field of the model. *)
Variable model_defaults : Row.

(** Django's password hasher: [make_password(raw)] and
    [check_password(raw, encoded)] of [django.contrib.auth.hashers]. *)
Variable make_password : option string -> string.
Variable hashers_check_password : string -> string -> bool.

(** The constraints of the users table (uniqueness and the like): whether
    the table accepts the row under the key. *)
Variable users_ok : gmap Z Row -> Z -> Row -> bool.

(** [self.model(username=username, **extra_fields)]: the given fields
    over the defaults. *)
Definition model (kwargs : Row) : Row := kwargs ∪ model_defaults.

(** [user.set_password(raw)] *)
Definition set_password (raw : option string) (user : Row) : Row :=
  <["password" := VStr (make_password raw)]> user.

(** [user.check_password(raw)]: false when no hash is stored. *)
Definition check_password (raw : string) (user : Row) : bool :=
  match user !! "password" with
  | Some (VStr encoded) => hashers_check_password raw encoded
  | _ => false
  end.

(** [user.save()]: UPDATE (or INSERT) under the instance's primary key, or
    INSERT under a new one, which the instance then carries. *)
Definition save (user : Row) : M Row := fun db =>
  let '(k, user) :=
    match user !! "id" with
    | Some (VInt k) => (k, user)
    | _ => let k := next_id (users db) in (k, <["id" := VInt k]> user)
    end in
  if users_ok (users db) k user
  then (Ok user, mkDB (<[k := user]> (users db)) (profiles db))
  else (Err IntegrityError, db).

(** [instance.profile] *)
Definition profile (instance : Row) : M Row := fun db =>
  match instance !! "id" with
  | Some (VInt k) =>
      match profiles db !! k with
      | Some p => (Ok p, db)
      | None => (Err DoesNotExist, db)
      end
  | _ => (Err DoesNotExist, db)
  end.

End Model.
End User.

(** [rest_framework.serializers.ModelSerializer.update]: [setattr] for every
    validated field, then [instance.save()]. *)
Definition ModelSerializer_update (users_ok : gmap Z Row -> Z -> Row -> bool)
    (instance validated_data : Row) : M Row :=
  User.save users_ok (validated_data ∪ instance).

(** ** users/managers/users.py *)

Module CustomUserManager.
Section Manager.

Variable model_defaults : Row.
Variable Role_ADMIN : string.
Variable make_password : option string -> string.
Variable users_ok : gmap Z Row -> Z -> Row -> bool.

Definition __check_email_or_phone_number (email phone_number : option string)
  : option string :=
  py_or email phone_number.

Definition __create_user (phone_number email password username : option string)
    (extra_fields : Row) : M Row :=
  if negb (opt_truthy (py_or (py_or email phone_number) username))
  then raise (ParseError "Specify email or phone number")
  else
    let email :=
      if opt_truthy email then Some (normalize_email email) else email in
    username ←
      (if negb (opt_truthy username)
       then match __check_email_or_phone_number email phone_number with
            | Some value =>
                mret (if contains_at value then before_at value else value)
            | None => raise TypeError       (* '@' in None *)
            end
       else mret (default "" username));
    let user :=
      User.model model_defaults (<["username" := VStr username]> extra_fields) in
    let user :=
      if opt_truthy email
      then <["email" := VStr (default "" email)]> user else user in
    let user :=
      if opt_truthy phone_number
      then <["phone_number" := VStr (default "" phone_number)]> user
      else user in
    is_superuser ← getattr user "is_superuser";
    let user :=
      if truthy is_superuser
      then <["role" := VStr Role_ADMIN]> user else user in
    let user := User.set_password make_password password user in
    User.save users_ok user.

Definition create_user (phone_number email password username : option string)
    (extra_fields : Row) : M Row :=
  let extra_fields := setdefault "is_superuser" (VBool false) extra_fields in
  let extra_fields := setdefault "is_active" (VBool true) extra_fields in
  __create_user phone_number email password username extra_fields.

Definition create_superuser (email phone_number password username : option string)
    (extra_fields : Row) : M Row :=
  let extra_fields := setdefault "is_superuser" (VBool true) extra_fields in
  let extra_fields := setdefault "is_active" (VBool true) extra_fields in
  if negb (truthy (dict_get "is_superuser" extra_fields))
  then raise (ValueError "is_superuser must be True")
  else __create_user phone_number email password username extra_fields.

End Manager.
End CustomUserManager.

(** ** users/serializers/api/users.py *)

Module RegistrationSerializer.

Definition validate_email (value : string) : M string := fun db =>
  let email := lower value in
  if email_exists email db
  then (Err (ParseError "A user with this email is already registered."), db)
  else (Ok email, db).

End RegistrationSerializer.

Module ChangePasswordSerializer.
Section Serializer.

Variable make_password : option string -> string.
Variable hashers_check_password : string -> string -> bool.
Variable users_ok : gmap Z Row -> Z -> Row -> bool.

(** [current_user] is the user [get_current_user()] returns. *)
Definition validate (current_user : Row) (attrs : gmap string string)
  : M (gmap string string) :=
  '(old_password, attrs) ← dict_pop "old_password" attrs;
  if negb (User.check_password hashers_check_password old_password current_user)
  then raise (ParseError "Проверьте правильность текущего пароля!")
  else mret attrs.

Definition update (instance : Row) (validated_data : gmap string string)
  : M Row :=
  '(password, _) ← dict_pop "new_password" validated_data;
  let instance := User.set_password make_password (Some password) instance in
  User.save users_ok instance.

End Serializer.
End ChangePasswordSerializer.

Module UserUpdateSerializer.
Section Serializer.

Variable users_ok : gmap Z Row -> Z -> Row -> bool.

(** [ProfileUpdateSerializer] ([users/serializers/nested/profile.py]) on an
    instance and data with [partial=True]: [is_valid(raise_exception=True)],
    giving the validated data, and [save()]. *)
Variable profile_is_valid : Row -> Row -> M Row.
Variable profile_save : Row -> Row -> M unit.

Definition _update_profile (profile data : Row) : M unit :=
  validated ← profile_is_valid profile data;
  profile_save profile validated.

Definition update (instance : Row) (validated_data : UpdateData) : M Row :=
  let profile_data := ud_profile validated_data in
  let validated_data := ud_fields validated_data in
  atomic (
    instance ← ModelSerializer_update users_ok instance validated_data;
    _ ← (if dict_truthy profile_data
         then profile ← User.profile instance;
              _update_profile profile (default ∅ profile_data)
         else mret tt);
    mret instance).

End Serializer.
End UserUpdateSerializer.

Module UserUpdateRoleSerializer.
Section Serializer.

Variables Role_ADMIN Role_MANAGER : string.
Variable Role_choices : list (string * string).
Variable users_ok : gmap Z Row -> Z -> Row -> bool.

(** The [ParseError] of the role check is built and dropped: the statement
    has no [raise]. *)
Definition update (instance : Row) (validated_data : gmap string string)
  : M Row :=
  '(current_role, _) ← dict_pop "role" validated_data;
  let _dropped : option exn :=
    if negb (existsb (fun '(role, _) => String.eqb current_role role) Role_choices)
    then Some (ParseError "Такой роли не существует!")
    else None in
  let instance :=
    if String.eqb current_role Role_ADMIN || String.eqb current_role Role_MANAGER
    then <["is_staff" := VBool true]> instance else instance in
  let instance := <["role" := VStr current_role]> instance in
  User.save users_ok instance.

End Serializer.
End UserUpdateRoleSerializer.

(** ** A concrete instance of what the sources leave open

    Used to run the embedding on concrete inputs. *)

Module Sample.

Definition defaults : Row :=
  list_to_map
    [ ("id", VNone); ("username", VStr ""); ("first_name", VStr "");
      ("last_name", VStr ""); ("email", VStr ""); ("phone_number", VNone);
      ("password", VStr ""); ("role", VStr "customer");
      ("is_superuser", VBool false); ("is_staff", VBool false);
      ("is_active", VBool true) ].

Definition ADMIN : string := "admin".
Definition MANAGER : string := "manager".
Definition choices : list (string * string) :=
  [ ("admin", "Admin"); ("manager", "Manager"); ("customer", "Customer") ].

(** A stand-in hasher: a prefix marks a hash; [None] gives an unusable one. *)
Definition make_password (raw : option string) : string :=
  match raw with
  | Some p => "plain$" ++ p
  | None => "!"
  end.

Definition check_password (raw encoded : string) : bool :=
  String.eqb encoded ("plain$" ++ raw).

(** The users table with a unique username. *)
Definition users_ok (t : gmap Z Row) (k : Z) (row : Row) : bool :=
  bool_decide
    (map_Forall (fun k' u => k' = k \/ u !! "username" ≠ row !! "username") t).

(** A profile serializer with one rule: a ['bio'], when given, is a string. *)
Definition profile_is_valid (profile data : Row) : M Row :=
  match data !! "bio" with
  | Some (VStr _) | None => mret data
  | Some _ => raise ValidationError
  end.

Definition profile_save (profile validated : Row) : M unit := fun db =>
  match profile !! "user_id" with
  | Some (VInt k) =>
      (Ok tt, mkDB (users db) (<[k := validated ∪ profile]> (profiles db)))
  | _ => (Err IntegrityError, db)
  end.

Definition empty_db : DB := mkDB ∅ ∅.

(** One registered user, with a profile. *)
Definition alice : Row :=
  <["id" := VInt 1]> (<["username" := VStr "alice"]>
  (<["email" := VStr "alice@example.com"]>
  (<["password" := VStr "plain$secret"]> defaults))).

Definition alice_profile : Row :=
  list_to_map [ ("user_id", VInt 1); ("bio", VStr "") ].

Definition db1 : DB := mkDB {[ 1%Z := alice ]} {[ 1%Z := alice_profile ]}.

End Sample.

(** * Properties *)

(** ** Strings and [normalize_email] *)

Example normalize_email_mixed :
  normalize_email (Some "  John.Doe@Example.COM ") = "John.Doe@example.com".
Proof. reflexivity. Qed.

Example normalize_email_no_at : normalize_email (Some " Bob ") = " Bob ".
Proof. reflexivity. Qed.

Example lower_ascii : lower "ABC xyz @[`{" = "abc xyz @[`{".
Proof. reflexivity. Qed.

Lemma nonempty_app_at (a b : string) : nonempty (a ++ "@" ++ b) = true.
Proof. destruct a; reflexivity. Qed.

Lemma opt_truthy_Some (o : option string) :
  opt_truthy o = true -> exists s, o = Some s /\ nonempty s = true.
Proof. destruct o as [s|]; simpl; [eauto | discriminate]. Qed.

Lemma normalize_email_unfold (e : string) :
  normalize_email (Some e) =
  match rsplit_at (strip e) with
  | Some (name, domain) => name ++ "@" ++ lower domain
  | None => e
  end.
Proof. unfold normalize_email, py_or; simpl. destruct e; reflexivity. Qed.

(** A non-empty address stays non-empty. *)
Lemma normalize_email_nonempty (email : option string) :
  opt_truthy email = true -> nonempty (normalize_email email) = true.
Proof.
  intros (e & -> & He)%opt_truthy_Some. rewrite normalize_email_unfold.
  destruct (rsplit_at (strip e)) as [[name domain]|]; [apply nonempty_app_at | exact He].
Qed.

(** ** The database monad *)

Lemma bind_ok {A B} (m : M A) (f : A -> M B) db a db1 :
  m db = (Ok a, db1) -> (m ≫= f) db = f a db1.
Proof. unfold mbind, M_bind. intros ->. reflexivity. Qed.

Lemma bind_err {A B} (m : M A) (f : A -> M B) db e db1 :
  m db = (Err e, db1) -> (m ≫= f) db = (Err e, db1).
Proof. unfold mbind, M_bind. intros ->. reflexivity. Qed.

Lemma atomic_ok {A} (body : M A) db a db1 :
  body db = (Ok a, db1) -> atomic body db = (Ok a, db1).
Proof. unfold atomic. intros ->. reflexivity. Qed.

Lemma atomic_err {A} (body : M A) db e db1 :
  body db = (Err e, db1) -> atomic body db = (Err e, db).
Proof. unfold atomic. intros ->. reflexivity. Qed.

Lemma is_ok_returned {A} (d : A) (r : result A * DB) :
  is_ok r = true -> r = (Ok (returned d r), snd r).
Proof. destruct r as [[a|e] db]; [reflexivity | discriminate]. Qed.

(** Whatever the body does, a raise out of [atomic] leaves the database as
    it was. *)
Lemma atomic_rollback {A} (body : M A) db e db1 :
  atomic body db = (Err e, db1) -> db1 = db.
Proof.
  unfold atomic. destruct (body db) as [[a|e'] db2]; intros [= <- <-] || intros [=].
  reflexivity.
Qed.

Lemma email_exists_spec (email : string) (db : DB) :
  email_exists email db = true <->
  exists k u, users db !! k = Some u /\ u !! "email" = Some (VStr email).
Proof. unfold email_exists. rewrite bool_decide_eq_true. reflexivity. Qed.

(** ** The model layer *)

Section SaveFacts.

Variable users_ok : gmap Z Row -> Z -> Row -> bool.

(** The row a [save] writes: the instance, with a primary key when it had
    none. *)
Lemma save_ok (user : Row) db u db' :
  User.save users_ok user db = (Ok u, db') ->
  exists k, u !! "id" = Some (VInt k)
    /\ users db' = <[k := u]> (users db) /\ profiles db' = profiles db
    /\ (forall f, f ≠ "id" -> u !! f = user !! f)
    /\ (forall j, user !! "id" = Some (VInt j) -> j = k /\ u = user).
Proof.
  unfold User.save.
  destruct (user !! "id") as [[| |k|]|] eqn:Hid;
    match goal with
    | |- context [users_ok ?t ?k ?r] => destruct (users_ok t k r); [|discriminate]
    end;
    intros [= <- <-]; eexists; simpl;
    (split; [try exact Hid; apply lookup_insert_eq|]);
    (split; [reflexivity|]); (split; [reflexivity|]);
    (split; [intros f Hf; try reflexivity; by rewrite lookup_insert_ne|]);
    intros j [= ->]; auto.
Qed.

Lemma save_stored (user : Row) db u db' :
  User.save users_ok user db = (Ok u, db') ->
  exists k, users db' !! k = Some u.
Proof.
  intros (k & _ & -> & _)%save_ok. exists k. apply lookup_insert_eq.
Qed.

(** A [save] raises nothing but [IntegrityError], and then writes nothing. *)
Lemma save_err (user : Row) db e db' :
  User.save users_ok user db = (Err e, db') -> e = IntegrityError /\ db' = db.
Proof.
  unfold User.save.
  destruct (user !! "id") as [[| |k|]|];
    match goal with
    | |- context [users_ok ?t ?k ?r] => destruct (users_ok t k r); [discriminate|]
    end; intros [= <- <-]; auto.
Qed.

End SaveFacts.

(** ** CustomUserManager *)

Section ManagerFacts.

Variable model_defaults : Row.
Variable Role_ADMIN : string.
Variable make_password : option string -> string.
Variable users_ok : gmap Z Row -> Z -> Row -> bool.

Local Abbreviation __create_user :=
  (CustomUserManager.__create_user model_defaults Role_ADMIN make_password users_ok).
Local Abbreviation create_user :=
  (CustomUserManager.create_user model_defaults Role_ADMIN make_password users_ok).
Local Abbreviation create_superuser :=
  (CustomUserManager.create_superuser model_defaults Role_ADMIN make_password users_ok).
Local Abbreviation save := (User.save users_ok).

(** The identifier a username is derived from is there whenever the first
    check passed and no username came. *)
Lemma identifier_present (phone_number email username : option string) :
  opt_truthy (py_or (py_or email phone_number) username) = true ->
  opt_truthy username = false ->
  py_or (if opt_truthy email then Some (normalize_email email) else email)
        phone_number
  = Some (if opt_truthy email then normalize_email email
          else default "" phone_number)
  /\ opt_truthy (py_or email phone_number) = true.
Proof.
  intros Hany Hu. unfold py_or in *.
  destruct (opt_truthy email) eqn:He.
  - simpl. rewrite (normalize_email_nonempty _ He). auto.
  - rewrite He. destruct (opt_truthy phone_number) eqn:Hp.
    + destruct phone_number; [auto | discriminate].
    + congruence.
Qed.

(** [__create_user], with its sequence of statements resolved: the three
    ways it raises before the save, and the instance it saves. *)
Lemma create_user_steps (phone_number email password username : option string)
    (extra_fields : Row) (db : DB) :
  __create_user phone_number email password username extra_fields db =
  if negb (opt_truthy (py_or (py_or email phone_number) username))
  then (Err (ParseError "Specify email or phone number"), db)
  else
    let value :=
      if opt_truthy email then normalize_email email
      else default "" phone_number in
    let username :=
      if opt_truthy username then default "" username
      else if contains_at value then before_at value else value in
    let user :=
      User.model model_defaults (<["username" := VStr username]> extra_fields) in
    let user :=
      if opt_truthy email
      then <["email" := VStr (normalize_email email)]> user else user in
    let user :=
      if opt_truthy phone_number
      then <["phone_number" := VStr (default "" phone_number)]> user
      else user in
    match user !! "is_superuser" with
    | None => (Err (AttributeError "is_superuser"), db)
    | Some is_superuser =>
        save (User.set_password make_password password
                (if truthy is_superuser
                 then <["role" := VStr Role_ADMIN]> user else user)) db
    end.
Proof.
  unfold CustomUserManager.__create_user.
  destruct (opt_truthy (py_or (py_or email phone_number) username)) eqn:Hany;
    simpl; [|reflexivity].
  destruct (opt_truthy username) eqn:Hu; simpl.
  - unfold mbind, M_bind, mret, M_ret, getattr; simpl.
    destruct (opt_truthy email) eqn:He; simpl.
    + rewrite (normalize_email_nonempty _ He).
      match goal with |- context [?r !! "is_superuser"] =>
        destruct (r !! "is_superuser") end; reflexivity.
    + rewrite He.
      match goal with |- context [?r !! "is_superuser"] =>
        destruct (r !! "is_superuser") end; reflexivity.
  - destruct (identifier_present _ _ _ Hany Hu) as [Hid _].
    unfold CustomUserManager.__check_email_or_phone_number. rewrite Hid.
    unfold mbind, M_bind, mret, M_ret, getattr; simpl.
    destruct (opt_truthy email) eqn:He; simpl.
    + rewrite (normalize_email_nonempty _ He).
      match goal with |- context [?r !! "is_superuser"] =>
        destruct (r !! "is_superuser") end; reflexivity.
    + rewrite He.
      match goal with |- context [?r !! "is_superuser"] =>
        destruct (r !! "is_superuser") end; reflexivity.
Qed.

(** What a successful [__create_user] returns and stores, field by field. *)
Lemma create_user_ok (phone_number email password username : option string)
    (extra_fields : Row) (db : DB) (u : Row) (db' : DB) :
  __create_user phone_number email password username extra_fields db
    = (Ok u, db') ->
  let value :=
    if opt_truthy email then normalize_email email
    else default "" phone_number in
  opt_truthy (py_or (py_or email phone_number) username) = true
  /\ (exists su, (extra_fields ∪ model_defaults) !! "is_superuser" = Some su
        /\ u !! "is_superuser" = Some su
        /\ u !! "role" =
             if truthy su then Some (VStr Role_ADMIN)
             else (extra_fields ∪ model_defaults) !! "role")
  /\ u !! "username" =
       Some (VStr (if opt_truthy username then default "" username
                   else if contains_at value then before_at value else value))
  /\ u !! "email" =
       (if opt_truthy email then Some (VStr (normalize_email email))
        else (extra_fields ∪ model_defaults) !! "email")
  /\ u !! "password" = Some (VStr (make_password password))
  /\ exists k, users db' !! k = Some u.
Proof.
  rewrite create_user_steps.
  destruct (opt_truthy (py_or (py_or email phone_number) username)) eqn:Hany;
    simpl; [|discriminate].
  set (uname := if opt_truthy username then _ else _).
  set (user0 := User.model model_defaults (<["username" := VStr uname]> extra_fields)).
  set (user1 := if opt_truthy email then _ else user0).
  set (user2 := if opt_truthy phone_number then _ else user1).
  assert (H0 : forall f, f ≠ "username" ->
            user0 !! f = (extra_fields ∪ model_defaults) !! f).
  { intros f Hf. unfold user0, User.model.
    rewrite !lookup_union, lookup_insert_ne by done. reflexivity. }
  assert (H0u : user0 !! "username" = Some (VStr uname)).
  { unfold user0, User.model. apply lookup_union_Some_l, lookup_insert_eq. }
  assert (H1 : forall f, f ≠ "email" -> user1 !! f = user0 !! f).
  { intros f Hf. unfold user1. destruct (opt_truthy email); [|done].
    by rewrite lookup_insert_ne. }
  assert (H1e : user1 !! "email" =
            if opt_truthy email then Some (VStr (normalize_email email))
            else user0 !! "email").
  { unfold user1. destruct (opt_truthy email); [|done]. apply lookup_insert_eq. }
  assert (H2 : forall f, f ≠ "phone_number" -> user2 !! f = user1 !! f).
  { intros f Hf. unfold user2. destruct (opt_truthy phone_number); [|done].
    by rewrite lookup_insert_ne. }
  destruct (user2 !! "is_superuser") as [su|] eqn:Hsu; [|discriminate].
  intros Hsave. pose proof (save_stored _ _ _ _ _ Hsave) as Hst.
  apply save_ok in Hsave as (k & _ & _ & _ & Hf & _).
  assert (Hrow : forall f, f ≠ "id" -> f ≠ "password" -> f ≠ "role" ->
            u !! f = user2 !! f).
  { intros f ? ? ?. rewrite Hf by done. unfold User.set_password.
    rewrite lookup_insert_ne by done.
    destruct (truthy su); [by rewrite lookup_insert_ne|done]. }
  split; [reflexivity|]. split.
  { exists su. rewrite <- H0, <- H1, <- H2, Hsu by done.
    split; [reflexivity|]. split; [by rewrite Hrow|].
    rewrite Hf by done. unfold User.set_password.
    rewrite lookup_insert_ne by done.
    destruct (truthy su); [apply lookup_insert_eq|].
    by rewrite H2, H1, H0. }
  split; [by rewrite Hrow, H2, H1|].
  split.
  { rewrite Hrow, H2, H1e by done.
    destruct (opt_truthy email); [done|by apply H0]. }
  split; [|exact Hst].
  rewrite Hf by done. apply lookup_insert_eq.
Qed.

(** C4. A creation call without email, phone number and username (absent or
    empty) raises [ParseError] and writes nothing, through [__create_user]
    and through [create_user]; with any one of the three given, no
    [ParseError] is raised. *)
Theorem create_user_requires_identifier
    (phone_number email password username : option string)
    (extra_fields : Row) (db : DB) :
  (opt_truthy email = false /\ opt_truthy phone_number = false
     /\ opt_truthy username = false ->
   __create_user phone_number email password username extra_fields db
     = (Err (ParseError "Specify email or phone number"), db)
   /\ create_user phone_number email password username extra_fields db
     = (Err (ParseError "Specify email or phone number"), db))
  /\ (opt_truthy email = true \/ opt_truthy phone_number = true
        \/ opt_truthy username = true ->
      forall detail,
        fst (__create_user phone_number email password username extra_fields db)
          ≠ Err (ParseError detail)
        /\ fst (create_user phone_number email password username extra_fields db)
          ≠ Err (ParseError detail)).
Proof.
  split.
  - intros (He & Hp & Hu). unfold CustomUserManager.create_user.
    rewrite !create_user_steps. unfold py_or. rewrite He, Hp, Hu. auto.
  - intros Hany detail.
    assert (Hor : opt_truthy (py_or (py_or email phone_number) username) = true).
    { unfold py_or.
      destruct (opt_truthy email) eqn:He; [by rewrite He|].
      destruct (opt_truthy phone_number) eqn:Hp; [by rewrite Hp|].
      destruct Hany as [|[|]]; congruence. }
    assert (Hgen : forall extra,
      fst (__create_user phone_number email password username extra db)
        ≠ Err (ParseError detail)).
    { intros extra. rewrite create_user_steps, Hor. simpl.
      match goal with |- context [?r !! "is_superuser"] =>
        destruct (r !! "is_superuser") as [su|] end; [|discriminate].
      match goal with |- context [save ?r db] =>
        destruct (save r db) as [[u|e] db'] eqn:Hs end; [discriminate|].
      apply save_err in Hs as [-> _]. discriminate. }
    split; [apply Hgen | apply Hgen].
Qed.

(** C9. [create_superuser] called with [is_superuser=False] raises
    [ValueError] and writes nothing; called without [is_superuser] it takes
    [True] for it and goes on to [__create_user], so no [ValueError] is
    raised. *)
Theorem create_superuser_is_superuser_flag
    (email phone_number password username : option string)
    (extra_fields : Row) (db : DB) :
  (extra_fields !! "is_superuser" = Some (VBool false) ->
   create_superuser email phone_number password username extra_fields db
     = (Err (ValueError "is_superuser must be True"), db))
  /\ (extra_fields !! "is_superuser" = None ->
      create_superuser email phone_number password username extra_fields db
        = __create_user phone_number email password username
            (setdefault "is_active" (VBool true)
               (<["is_superuser" := VBool true]> extra_fields)) db
      /\ forall detail,
           fst (create_superuser email phone_number password username
                  extra_fields db) ≠ Err (ValueError detail)).
Proof.
  split; intros Hsu.
  - unfold CustomUserManager.create_superuser, setdefault, dict_get.
    rewrite Hsu.
    destruct (extra_fields !! "is_active") eqn:Ha; simpl.
    + rewrite Hsu. reflexivity.
    + rewrite lookup_insert_ne, Hsu by done. reflexivity.
  - assert (Heq :
      create_superuser email phone_number password username extra_fields db
      = __create_user phone_number email password username
          (setdefault "is_active" (VBool true)
             (<["is_superuser" := VBool true]> extra_fields)) db).
    { unfold CustomUserManager.create_superuser.
      unfold setdefault at 2 4. rewrite Hsu.
      unfold setdefault, dict_get.
      rewrite (lookup_insert_ne extra_fields "is_superuser" "is_active") by done.
      destruct (extra_fields !! "is_active") eqn:Ha; simpl.
      - rewrite lookup_insert_eq. reflexivity.
      - rewrite lookup_insert_ne, lookup_insert_eq by done. reflexivity. }
    split; [exact Heq|]. intros detail. rewrite Heq, create_user_steps.
    destruct (negb _); [discriminate|]. simpl.
    match goal with |- context [?r !! "is_superuser"] =>
      destruct (r !! "is_superuser") as [su|] end; [|discriminate].
    match goal with |- context [save ?r db] =>
      destruct (save r db) as [[u|e] db'] eqn:Hs end; [discriminate|].
    apply save_err in Hs as [-> _]. discriminate.
Qed.

(** C1. With no username and an email or a phone number, the username of
    the created user comes from the identifier, which is the normalized
    email when an email is given and the phone number otherwise: the text
    before its first ['@'] when it has one, the identifier itself when it
    has none.  The call gets as far as saving a user with that username
    whenever the model has the [is_superuser] attribute it reads. *)
Theorem username_derived_from_identifier
    (phone_number email password username : option string)
    (extra_fields : Row) (db : DB) :
  opt_truthy username = false ->
  opt_truthy (py_or email phone_number) = true ->
  let value :=
    if opt_truthy email then normalize_email email
    else default "" phone_number in
  let derived := if contains_at value then before_at value else value in
  (forall u db',
     __create_user phone_number email password username extra_fields db
       = (Ok u, db') ->
     u !! "username" = Some (VStr derived)
     /\ exists k, users db' !! k = Some u)
  /\ (is_Some ((extra_fields ∪ model_defaults) !! "is_superuser") ->
      exists row,
        row !! "username" = Some (VStr derived)
        /\ __create_user phone_number email password username extra_fields db
            = save row db).
Proof.
  intros Hu Hid value derived. split.
  - intros u db' Hok.
    destruct (create_user_ok _ _ _ _ _ _ _ _ Hok) as (_ & _ & Hname & _ & _ & Hst).
    rewrite Hu in Hname. auto.
  - intros [su Hsu]. rewrite create_user_steps.
    assert (Hany : opt_truthy (py_or (py_or email phone_number) username) = true).
    { unfold py_or at 1. by rewrite Hid. }
    rewrite Hany, Hu. simpl. fold value. fold derived.
    set (user0 := User.model model_defaults _).
    assert (H0 : user0 !! "is_superuser" = Some su).
    { unfold user0, User.model. rewrite lookup_union, lookup_insert_ne by done.
      by rewrite <- lookup_union. }
    assert (H0u : user0 !! "username" = Some (VStr derived)).
    { unfold user0, User.model. apply lookup_union_Some_l, lookup_insert_eq. }
    set (user2 := if opt_truthy phone_number then _ else _).
    assert (H2 : forall f, f ≠ "email" -> f ≠ "phone_number" ->
              user2 !! f = user0 !! f).
    { intros f ? ?. unfold user2.
      destruct (opt_truthy phone_number), (opt_truthy email);
        by rewrite ?lookup_insert_ne. }
    rewrite H2, H0 by done. eexists. split; [|reflexivity].
    unfold User.set_password. rewrite lookup_insert_ne by done.
    destruct (truthy su); rewrite ?lookup_insert_ne, H2 by done; exact H0u.
Qed.

(** C5. A user [create_superuser] returns has the admin role and a true
    [is_superuser], and is the row stored; [is_superuser] is [True] when the
    caller left it out; and [__create_user] gives [Role.ADMIN] to every user
    whose [is_superuser] is true. *)
Theorem superuser_has_admin_role
    (email phone_number password username : option string)
    (extra_fields : Row) (db : DB) (u : Row) (db' : DB) :
  (create_superuser email phone_number password username extra_fields db
     = (Ok u, db') ->
   u !! "role" = Some (VStr Role_ADMIN)
   /\ (exists su, u !! "is_superuser" = Some su /\ truthy su = true)
   /\ (extra_fields !! "is_superuser" = None ->
       u !! "is_superuser" = Some (VBool true))
   /\ exists k, users db' !! k = Some u)
  /\ (__create_user phone_number email password username extra_fields db
       = (Ok u, db') ->
     forall su, u !! "is_superuser" = Some su -> truthy su = true ->
     u !! "role" = Some (VStr Role_ADMIN)).
Proof.
  split.
  - unfold CustomUserManager.create_superuser.
    set (extra := setdefault "is_active" _ _).
    destruct (truthy (dict_get "is_superuser" extra)) eqn:Hsu; simpl;
      [|discriminate].
    intros Hok.
    destruct (create_user_ok _ _ _ _ _ _ _ _ Hok)
      as (_ & (su & Hsu1 & Hsu2 & Hrole) & _ & _ & _ & Hst).
    assert (Hget : extra !! "is_superuser" = Some su).
    { unfold dict_get in Hsu.
      destruct (extra !! "is_superuser") as [v|] eqn:Hx; [|discriminate].
      rewrite (lookup_union_Some_l _ model_defaults _ _ Hx) in Hsu1.
      congruence. }
    assert (Ht : truthy su = true).
    { unfold dict_get in Hsu. by rewrite Hget in Hsu. }
    rewrite Ht in Hrole.
    split; [exact Hrole|]. split; [eauto|]. split; [|exact Hst].
    intros Hnone. rewrite Hsu2. rewrite <- Hget. unfold extra, setdefault.
    rewrite Hnone.
    destruct (<["is_superuser" := VBool true]> extra_fields !! "is_active");
      rewrite ?lookup_insert_ne by done; apply lookup_insert_eq.
  - intros Hok su Hsu Ht.
    destruct (create_user_ok _ _ _ _ _ _ _ _ Hok)
      as (_ & (su' & _ & Hsu2 & Hrole) & _).
    rewrite Hsu in Hsu2. injection Hsu2 as <-. by rewrite Ht in Hrole.
Qed.

(** C7, as the code has it.  The email stored on a created user is Django's
    [normalize_email] of the one given: when the stripped address has an
    ['@'], the text before the last ['@'], the ['@'] and the lowercased
    domain; otherwise the address as given.  Two addresses with the same
    local part and domains that differ in letter case only are stored
    alike; the case of the local part is kept. *)
Theorem stored_email_domain_lowercased
    (phone_number password username : option string) (e : string)
    (extra_fields : Row) (db : DB) (u : Row) (db' : DB) :
  nonempty e = true ->
  __create_user phone_number (Some e) password username extra_fields db
    = (Ok u, db') ->
  u !! "email" = Some (VStr (normalize_email (Some e)))
  /\ (exists k, users db' !! k = Some u)
  /\ normalize_email (Some e) =
       match rsplit_at (strip e) with
       | Some (name, domain) => name ++ "@" ++ lower domain
       | None => e
       end
  /\ (forall e2 name d1 d2,
        rsplit_at (strip e) = Some (name, d1) ->
        rsplit_at (strip e2) = Some (name, d2) ->
        lower d1 = lower d2 ->
        normalize_email (Some e2) = normalize_email (Some e)).
Proof.
  intros He Hok.
  destruct (create_user_ok _ _ _ _ _ _ _ _ Hok) as (_ & _ & _ & Hemail & _ & Hst).
  simpl in Hemail. rewrite He in Hemail.
  split; [exact Hemail|]. split; [exact Hst|].
  split; [apply normalize_email_unfold|].
  intros e2 name d1 d2 H1 H2 Hl.
  rewrite !normalize_email_unfold, H1, H2, Hl. reflexivity.
Qed.

End ManagerFacts.

(** ** RegistrationSerializer *)

(** C6. Registration with an email whose lowercased form is the email of a
    user in the table raises [ParseError]; with any other email the
    validation returns the lowercased email.  Nothing is written. *)
Theorem registration_email_unique (value : string) (db : DB) :
  ((exists k u, users db !! k = Some u
                /\ u !! "email" = Some (VStr (lower value))) ->
   RegistrationSerializer.validate_email value db
     = (Err (ParseError "A user with this email is already registered."), db))
  /\ (~ (exists k u, users db !! k = Some u
                    /\ u !! "email" = Some (VStr (lower value))) ->
      RegistrationSerializer.validate_email value db = (Ok (lower value), db)).
Proof.
  unfold RegistrationSerializer.validate_email.
  split; intros H.
  - apply email_exists_spec in H. rewrite H. reflexivity.
  - destruct (email_exists (lower value) db) eqn:E; [|reflexivity].
    apply email_exists_spec in E. contradiction.
Qed.

(** ** ChangePasswordSerializer *)

Section ChangePasswordFacts.

Variable make_password : option string -> string.
Variable hashers_check_password : string -> string -> bool.
Variable users_ok : gmap Z Row -> Z -> Row -> bool.

Local Abbreviation validate :=
  (ChangePasswordSerializer.validate hashers_check_password).
Local Abbreviation update :=
  (ChangePasswordSerializer.update make_password users_ok).
Local Abbreviation check_password := (User.check_password hashers_check_password).

(** C8. For a request with an [old_password], [validate] raises
    [ParseError] exactly when the old password does not match the stored
    password of the current user, and otherwise returns the remaining
    attributes; [update] then saves the instance with the hash of
    [new_password] as its password, and that is the row stored. *)
Theorem change_password_checks_old (current_user instance : Row)
    (attrs : gmap string string) (old_password new_password : string) (db : DB) :
  attrs !! "old_password" = Some old_password ->
  attrs !! "new_password" = Some new_password ->
  ((exists detail, validate current_user attrs db = (Err (ParseError detail), db))
     <-> check_password old_password current_user = false)
  /\ (check_password old_password current_user = true ->
      validate current_user attrs db = (Ok (delete "old_password" attrs), db))
  /\ update instance (delete "old_password" attrs) db
     = User.save users_ok
         (<["password" := VStr (make_password (Some new_password))]> instance) db
  /\ (forall u db',
        update instance (delete "old_password" attrs) db = (Ok u, db') ->
        u !! "password" = Some (VStr (make_password (Some new_password)))
        /\ exists k, users db' !! k = Some u).
Proof.
  intros Hold Hnew.
  assert (Hv : validate current_user attrs db =
    if negb (check_password old_password current_user)
    then (Err (ParseError "Проверьте правильность текущего пароля!"), db)
    else (Ok (delete "old_password" attrs), db)).
  { unfold ChangePasswordSerializer.validate, dict_pop. rewrite Hold.
    unfold mbind, M_bind, mret, M_ret; simpl.
    destruct (check_password old_password current_user); reflexivity. }
  assert (Hu : update instance (delete "old_password" attrs) db
     = User.save users_ok
         (<["password" := VStr (make_password (Some new_password))]> instance) db).
  { unfold ChangePasswordSerializer.update, dict_pop.
    rewrite lookup_delete_ne, Hnew by done. reflexivity. }
  split; [|split; [|split]].
  - rewrite Hv. destruct (check_password old_password current_user); simpl.
    + split; [intros [detail [=]] | discriminate].
    + split; [reflexivity | eauto].
  - intros Hc. rewrite Hv, Hc. reflexivity.
  - exact Hu.
  - intros u db' Hok. rewrite Hu in Hok.
    pose proof (save_stored _ _ _ _ _ Hok) as Hst.
    apply save_ok in Hok as (k & _ & _ & _ & Hf & _).
    split; [|exact Hst]. rewrite Hf by done. apply lookup_insert_eq.
Qed.

End ChangePasswordFacts.

(** ** UserUpdateSerializer *)

Section UserUpdateFacts.

Variable users_ok : gmap Z Row -> Z -> Row -> bool.
Variable profile_is_valid : Row -> Row -> M Row.
Variable profile_save : Row -> Row -> M unit.

Local Abbreviation update :=
  (UserUpdateSerializer.update users_ok profile_is_valid profile_save).
Local Abbreviation _update_profile :=
  (UserUpdateSerializer._update_profile profile_is_valid profile_save).

(** C3. The update of a user with its profile is all or nothing.  When the
    user part has been written and the profile part then raises, in its
    validation or in its save, the call raises the same exception and the
    database is the one the call found; a call that raises for any reason
    leaves the database as it was; and a call that returns has run the user
    update and, with profile data, the profile update. *)
Theorem user_profile_update_atomic (instance : Row) (validated_data : UpdateData)
    (db : DB) :
  (forall data u db1 p e db2,
     ud_profile validated_data = Some data ->
     dict_truthy (Some data) = true ->
     ModelSerializer_update users_ok instance (ud_fields validated_data) db
       = (Ok u, db1) ->
     User.profile u db1 = (Ok p, db1) ->
     _update_profile p data db1 = (Err e, db2) ->
     update instance validated_data db = (Err e, db))
  /\ (forall e db', update instance validated_data db = (Err e, db') -> db' = db)
  /\ (forall u db',
        update instance validated_data db = (Ok u, db') ->
        exists db1,
          ModelSerializer_update users_ok instance (ud_fields validated_data) db
            = (Ok u, db1)
          /\ if dict_truthy (ud_profile validated_data)
             then exists p, User.profile u db1 = (Ok p, db1)
                    /\ _update_profile p (default ∅ (ud_profile validated_data)) db1
                       = (Ok tt, db')
             else db' = db1).
Proof.
  split; [|split].
  - intros data u db1 p e db2 Hd Ht Hu Hp He.
    unfold UserUpdateSerializer.update. apply atomic_err with (db1 := db2).
    rewrite (bind_ok _ _ _ _ _ Hu), Hd, Ht.
    erewrite bind_err; [reflexivity|].
    rewrite (bind_ok _ _ _ _ _ Hp). exact He.
  - intros e db'. apply atomic_rollback.
  - intros u db'. unfold UserUpdateSerializer.update, atomic.
    unfold mbind at 1, M_bind at 1.
    destruct (ModelSerializer_update _ _ _ db) as [[u1|e1] db1] eqn:Hu;
      [|discriminate].
    unfold mbind at 1, M_bind at 1.
    destruct (dict_truthy (ud_profile validated_data)).
    + unfold mbind at 1, M_bind at 1.
      destruct (User.profile u1 db1) as [[p|e] dbp] eqn:Hp; [|discriminate].
      assert (dbp = db1) as ->.
      { revert Hp. unfold User.profile.
        repeat case_match; intros [= ]; congruence. }
      destruct (UserUpdateSerializer._update_profile _ _ p _ db1)
        as [[[]|e] db2] eqn:Hup; [|discriminate].
      intros [= <- <-]. exists db1. split; [reflexivity|]. eauto.
    + intros [= <- <-]. exists db1. auto.
Qed.

End UserUpdateFacts.

(** ** UserUpdateRoleSerializer *)

Section RoleFacts.

Variables Role_ADMIN Role_MANAGER : string.
Variable Role_choices : list (string * string).
Variable users_ok : gmap Z Row -> Z -> Row -> bool.

Local Abbreviation update :=
  (UserUpdateRoleSerializer.update Role_ADMIN Role_MANAGER Role_choices users_ok).

(** The role update saves the instance with the new role whatever the role
    is: the membership test on [Role.choices] decides nothing. *)
Lemma update_role_steps (instance : Row) (validated_data : gmap string string)
    (role : string) (db : DB) :
  validated_data !! "role" = Some role ->
  update instance validated_data db =
  User.save users_ok
    (<["role" := VStr role]>
       (if String.eqb role Role_ADMIN || String.eqb role Role_MANAGER
        then <["is_staff" := VBool true]> instance else instance)) db.
Proof.
  intros Hr. unfold UserUpdateRoleSerializer.update, dict_pop. rewrite Hr.
  reflexivity.
Qed.

(** C10. A role update saves the instance with [is_staff] set to [True]
    exactly when the new role is ADMIN or MANAGER; for any other role
    [is_staff] is as it was, so a true [is_staff] is never made false; the
    role is the new one and every other attribute is as it was.  For an
    instance that has its primary key, the saved row is what is returned
    and stored. *)
Theorem role_update_is_staff_frame (instance : Row)
    (validated_data : gmap string string) (role : string) (db : DB) :
  validated_data !! "role" = Some role ->
  exists row,
    update instance validated_data db = User.save users_ok row db
    /\ row !! "role" = Some (VStr role)
    /\ row !! "is_staff" =
         (if String.eqb role Role_ADMIN || String.eqb role Role_MANAGER
          then Some (VBool true) else instance !! "is_staff")
    /\ (instance !! "is_staff" = Some (VBool true) ->
        row !! "is_staff" = Some (VBool true))
    /\ (forall f, f ≠ "role" -> f ≠ "is_staff" -> row !! f = instance !! f)
    /\ (forall k u db',
          instance !! "id" = Some (VInt k) ->
          update instance validated_data db = (Ok u, db') ->
          u = row /\ users db' !! k = Some row).
Proof.
  intros Hr. eexists. split; [apply (update_role_steps _ _ _ _ Hr)|].
  set (staff := String.eqb role Role_ADMIN || String.eqb role Role_MANAGER).
  split; [apply lookup_insert_eq|].
  split; [|split; [|split]].
  - rewrite lookup_insert_ne by done.
    destruct staff; [apply lookup_insert_eq | reflexivity].
  - intros Hs. rewrite lookup_insert_ne by done.
    destruct staff; [apply lookup_insert_eq | exact Hs].
  - intros f Hf1 Hf2. rewrite lookup_insert_ne by done.
    destruct staff; [by rewrite lookup_insert_ne | reflexivity].
  - intros k u db' Hid Hok. rewrite (update_role_steps _ _ _ _ Hr) in Hok.
    fold staff in Hok.
    apply save_ok in Hok as (k' & _ & Hus & _ & _ & Hsame).
    destruct (Hsame k) as [-> ->].
    { rewrite lookup_insert_ne by done.
      destruct staff; [by rewrite lookup_insert_ne | exact Hid]. }
    split; [reflexivity|]. rewrite Hus. apply lookup_insert_eq.
Qed.

End RoleFacts.

(** * The code on concrete inputs *)

Local Abbreviation run__create_user :=
  (CustomUserManager.__create_user
     Sample.defaults Sample.ADMIN Sample.make_password Sample.users_ok).
Local Abbreviation run_create_user :=
  (CustomUserManager.create_user
     Sample.defaults Sample.ADMIN Sample.make_password Sample.users_ok).
Local Abbreviation run_create_superuser :=
  (CustomUserManager.create_superuser
     Sample.defaults Sample.ADMIN Sample.make_password Sample.users_ok).

(** C1 on an input: an email and a phone number, no username. *)
Lemma username_derived_from_identifier_witness :
  let r := run__create_user (Some "+100200") (Some "Bob.Smith@Example.COM")
             (Some "pw") None {[ "is_superuser" := VBool false ]} Sample.db1 in
  r = (Ok (returned ∅ r), snd r)
  /\ returned ∅ r !! "username" = Some (VStr "Bob.Smith").
Proof.
  intros r.
  assert (Hr : r = (Ok (returned ∅ r), snd r))
    by (apply is_ok_returned; vm_compute; reflexivity).
  split; [exact Hr|].
  exact (proj1 (proj1 (username_derived_from_identifier
                         Sample.defaults Sample.ADMIN Sample.make_password
                         Sample.users_ok (Some "+100200")
                         (Some "Bob.Smith@Example.COM") (Some "pw") None
                         {[ "is_superuser" := VBool false ]} Sample.db1
                         eq_refl eq_refl) _ _ Hr)).
Defined.

(** C4 on inputs: an empty email and nothing else; a phone number only. *)
Lemma create_user_requires_identifier_witness :
  run_create_user None (Some "") (Some "pw") None ∅ Sample.db1
    = (Err (ParseError "Specify email or phone number"), Sample.db1)
  /\ fst (run_create_user (Some "+100200") None (Some "pw") None ∅ Sample.db1)
       ≠ Err (ParseError "Specify email or phone number").
Proof.
  split.
  - apply (proj1 (create_user_requires_identifier
                    Sample.defaults Sample.ADMIN Sample.make_password
                    Sample.users_ok None (Some "") (Some "pw") None ∅ Sample.db1)).
    repeat split; reflexivity.
  - apply (proj2 (create_user_requires_identifier
                    Sample.defaults Sample.ADMIN Sample.make_password
                    Sample.users_ok (Some "+100200") None (Some "pw") None ∅
                    Sample.db1)).
    right; left; reflexivity.
Defined.

(** C5 on an input: a superuser asked for with the role of a customer. *)
Lemma superuser_has_admin_role_witness :
  let r := run_create_superuser (Some "root@example.com") None (Some "pw") None
             {[ "role" := VStr "customer" ]} Sample.db1 in
  r = (Ok (returned ∅ r), snd r)
  /\ returned ∅ r !! "role" = Some (VStr "admin").
Proof.
  intros r.
  assert (Hr : r = (Ok (returned ∅ r), snd r))
    by (apply is_ok_returned; vm_compute; reflexivity).
  split; [exact Hr|].
  exact (proj1 (proj1 (superuser_has_admin_role
                         Sample.defaults Sample.ADMIN Sample.make_password
                         Sample.users_ok (Some "root@example.com") None
                         (Some "pw") None {[ "role" := VStr "customer" ]}
                         Sample.db1 _ _) Hr)).
Defined.

(** C7 on an input: the domain is lowercased, the local part is not. *)
Lemma stored_email_domain_lowercased_witness :
  let r := run__create_user None (Some "Bob@Example.COM") (Some "pw") None
             {[ "is_superuser" := VBool false ]} Sample.db1 in
  r = (Ok (returned ∅ r), snd r)
  /\ returned ∅ r !! "email" = Some (VStr "Bob@example.com").
Proof.
  intros r.
  assert (Hr : r = (Ok (returned ∅ r), snd r))
    by (apply is_ok_returned; vm_compute; reflexivity).
  split; [exact Hr|].
  exact (proj1 (stored_email_domain_lowercased
                  Sample.defaults Sample.ADMIN Sample.make_password
                  Sample.users_ok None (Some "pw") None "Bob@Example.COM"
                  {[ "is_superuser" := VBool false ]} Sample.db1 _ _
                  eq_refl Hr)).
Defined.

(** C7 as the claim has it fails: two emails that differ in letter case
    only, in the local part, are stored as two different values. *)
Lemma email_case_kept_in_local_part :
  let r1 := run_create_user None (Some "Bob@example.com") (Some "pw") None ∅
              Sample.empty_db in
  let r2 := run_create_user None (Some "bob@example.com") (Some "pw") None ∅
              Sample.empty_db in
  lower "Bob@example.com" = lower "bob@example.com"
  /\ r1 = (Ok (returned ∅ r1), snd r1)
  /\ r2 = (Ok (returned ∅ r2), snd r2)
  /\ returned ∅ r1 !! "email" = Some (VStr "Bob@example.com")
  /\ returned ∅ r2 !! "email" = Some (VStr "bob@example.com")
  /\ returned ∅ r1 !! "email" ≠ returned ∅ r2 !! "email".
Proof.
  intros r1 r2.
  assert (H1 : returned ∅ r1 !! "email" = Some (VStr "Bob@example.com"))
    by (vm_compute; reflexivity).
  assert (H2 : returned ∅ r2 !! "email" = Some (VStr "bob@example.com"))
    by (vm_compute; reflexivity).
  split; [reflexivity|].
  split; [apply is_ok_returned; vm_compute; reflexivity|].
  split; [apply is_ok_returned; vm_compute; reflexivity|].
  split; [exact H1|]. split; [exact H2|].
  rewrite H1, H2. discriminate.
Qed.

(** C9 on inputs: [is_superuser=False], and no [is_superuser]. *)
Lemma create_superuser_is_superuser_flag_witness :
  run_create_superuser (Some "root@example.com") None (Some "pw") None
    {[ "is_superuser" := VBool false ]} Sample.db1
    = (Err (ValueError "is_superuser must be True"), Sample.db1)
  /\ fst (run_create_superuser (Some "root@example.com") None (Some "pw") None
            ∅ Sample.db1) ≠ Err (ValueError "is_superuser must be True").
Proof.
  split.
  - apply (proj1 (create_superuser_is_superuser_flag
                    Sample.defaults Sample.ADMIN Sample.make_password
                    Sample.users_ok (Some "root@example.com") None (Some "pw")
                    None {[ "is_superuser" := VBool false ]} Sample.db1)).
    reflexivity.
  - apply (proj2 (create_superuser_is_superuser_flag
                    Sample.defaults Sample.ADMIN Sample.make_password
                    Sample.users_ok (Some "root@example.com") None (Some "pw")
                    None ∅ Sample.db1)).
    reflexivity.
Defined.

(** C6 on inputs: the email of a registered user in other letter case, and
    a new email. *)
Lemma registration_email_unique_witness :
  RegistrationSerializer.validate_email "Alice@Example.COM" Sample.db1
    = (Err (ParseError "A user with this email is already registered."),
       Sample.db1)
  /\ RegistrationSerializer.validate_email "Carol@Example.COM" Sample.db1
     = (Ok "carol@example.com", Sample.db1).
Proof.
  split.
  - apply (proj1 (registration_email_unique "Alice@Example.COM" Sample.db1)).
    exists 1%Z, Sample.alice.
    split; [apply lookup_singleton_eq | vm_compute; reflexivity].
  - apply (proj2 (registration_email_unique "Carol@Example.COM" Sample.db1)).
    intros H%email_exists_spec. vm_compute in H. discriminate.
Defined.

(** C8 on an input: the current user changes a password with the right old
    one. *)
Lemma change_password_checks_old_witness :
  ChangePasswordSerializer.validate Sample.check_password Sample.alice
    {[ "old_password" := "secret"; "new_password" := "fresh" ]} Sample.db1
  = (Ok (delete "old_password"
           ({[ "old_password" := "secret"; "new_password" := "fresh" ]}
              : gmap string string)), Sample.db1)
  /\ ChangePasswordSerializer.update Sample.make_password Sample.users_ok
       Sample.alice
       (delete "old_password"
          ({[ "old_password" := "secret"; "new_password" := "fresh" ]}
             : gmap string string)) Sample.db1
     = User.save Sample.users_ok
         (<["password" := VStr "plain$fresh"]> Sample.alice) Sample.db1.
Proof.
  pose proof (change_password_checks_old
                Sample.make_password Sample.check_password Sample.users_ok
                Sample.alice Sample.alice
                {[ "old_password" := "secret"; "new_password" := "fresh" ]}
                "secret" "fresh" Sample.db1 eq_refl eq_refl)
    as (_ & Hv & Hu & _).
  split; [apply Hv; vm_compute; reflexivity | exact Hu].
Defined.

(** The sample profile serializer turns down a ['bio'] that is a number,
    whatever the profile and the database. *)
Lemma sample_profile_rejects_number (p : Row) (db : DB) :
  UserUpdateSerializer._update_profile
    Sample.profile_is_valid Sample.profile_save p {[ "bio" := VInt 3 ]} db
  = (Err ValidationError, db).
Proof. reflexivity. Qed.

(** C3 on an input: a new first name together with profile data the
    profile serializer turns down. *)
Lemma user_profile_update_atomic_witness :
  let vd := mkUpdateData {[ "first_name" := VStr "Al" ]}
              (Some {[ "bio" := VInt 3 ]}) in
  let r := ModelSerializer_update Sample.users_ok Sample.alice (ud_fields vd)
             Sample.db1 in
  r = (Ok (returned ∅ r), snd r)
  /\ returned ∅ r !! "first_name" = Some (VStr "Al")
  /\ (users (snd r) !! 1%Z) ≫= (.!! "first_name") = Some (VStr "Al")
  /\ UserUpdateSerializer.update
       Sample.users_ok Sample.profile_is_valid Sample.profile_save
       Sample.alice vd Sample.db1
     = (Err ValidationError, Sample.db1).
Proof.
  intros vd r.
  assert (Hr : r = (Ok (returned ∅ r), snd r))
    by (apply is_ok_returned; vm_compute; reflexivity).
  assert (Hp : User.profile (returned ∅ r) (snd r)
               = (Ok (returned ∅ (User.profile (returned ∅ r) (snd r))), snd r)).
  { assert (Hs : snd (User.profile (returned ∅ r) (snd r)) = snd r).
    { unfold User.profile. repeat case_match; reflexivity. }
    rewrite <- Hs at 3. apply is_ok_returned. vm_compute. reflexivity. }
  split; [exact Hr|].
  split; [vm_compute; reflexivity|].
  split; [vm_compute; reflexivity|].
  exact (proj1 (user_profile_update_atomic
                  Sample.users_ok Sample.profile_is_valid Sample.profile_save
                  Sample.alice vd Sample.db1)
           {[ "bio" := VInt 3 ]} _ _ _ ValidationError (snd r)
           eq_refl eq_refl Hr Hp (sample_profile_rejects_number _ _)).
Defined.

(** C10 on an input: a user is made a manager. *)
Lemma role_update_is_staff_frame_witness :
  exists row,
    UserUpdateRoleSerializer.update Sample.ADMIN Sample.MANAGER Sample.choices
      Sample.users_ok Sample.alice {[ "role" := "manager" ]} Sample.db1
    = User.save Sample.users_ok row Sample.db1
    /\ row !! "role" = Some (VStr "manager")
    /\ row !! "is_staff" = Some (VBool true)
    /\ row !! "email" = Sample.alice !! "email".
Proof.
  destruct (role_update_is_staff_frame
              Sample.ADMIN Sample.MANAGER Sample.choices Sample.users_ok
              Sample.alice {[ "role" := "manager" ]} "manager" Sample.db1
              (lookup_singleton_eq _ _)) as (row & H1 & H2 & H3 & _ & H5 & _).
  exists row. split; [exact H1|]. split; [exact H2|]. split; [exact H3|].
  apply H5; discriminate.
Defined.

(** C2 on a failing input: a role that is not among the choices is written
    to the user, returned and stored, and nothing is raised. *)
Theorem update_role_accepts_unknown_role :
  let r := UserUpdateRoleSerializer.update Sample.ADMIN Sample.MANAGER
             Sample.choices Sample.users_ok Sample.alice
             {[ "role" := "emperor" ]} Sample.db1 in
  existsb (fun '(role, _) => String.eqb "emperor" role) Sample.choices = false
  /\ Sample.alice !! "role" = Some (VStr "customer")
  /\ r = (Ok (returned ∅ r), snd r)
  /\ returned ∅ r !! "role" = Some (VStr "emperor")
  /\ (users (snd r) !! 1%Z) ≫= (.!! "role") = Some (VStr "emperor").
Proof.
  intros r.
  split; [reflexivity|].
  split; [vm_compute; reflexivity|].
  split; [apply is_ok_returned; vm_compute; reflexivity|].
  split; vm_compute; reflexivity.
Qed.

(** * Further properties of the code *)

(** ** Strings *)

Lemma lower_char_idem (c : ascii) : lower_char (lower_char c) = lower_char c.
Proof. destruct c as [[] [] [] [] [] [] [] []]; reflexivity. Qed.

Lemma lower_idem (s : string) : lower (lower s) = lower s.
Proof. induction s as [|c r IH]; simpl; [reflexivity|]. by rewrite lower_char_idem, IH. Qed.

Lemma lower_app (a b : string) : lower (a ++ b) = lower a ++ lower b.
Proof. induction a as [|c r IH]; simpl; [reflexivity|]. by rewrite IH. Qed.

Lemma lower_cons_fixed (c : ascii) (r : string) :
  lower (String c r) = String c r -> lower_char c = c /\ lower r = r.
Proof. simpl. intros [= Hc Hr]. auto. Qed.

Lemma lstrip_lower_fixed (s : string) : lower s = s -> lower (lstrip s) = lstrip s.
Proof.
  induction s as [|c r IH]; [reflexivity|]. intros H.
  destruct (lower_cons_fixed _ _ H) as [Hc Hr]. simpl.
  destruct (is_space c); [by apply IH | exact H].
Qed.

Lemma rstrip_lower_fixed (s : string) : lower s = s -> lower (rstrip s) = rstrip s.
Proof.
  induction s as [|c r IH]; [reflexivity|]. intros H.
  destruct (lower_cons_fixed _ _ H) as [Hc Hr]. simpl.
  specialize (IH Hr). destruct (rstrip r) as [|c' r'].
  - destruct (is_space c); simpl; [reflexivity | by rewrite Hc].
  - change (lower (String c (String c' r'))) with
      (String (lower_char c) (lower (String c' r'))).
    by rewrite Hc, IH.
Qed.

Lemma rsplit_at_lower_fixed (s a b : string) :
  rsplit_at s = Some (a, b) -> lower s = s -> lower a = a /\ lower b = b.
Proof.
  revert a b. induction s as [|c r IH]; [discriminate|]. intros a b Hs H.
  destruct (lower_cons_fixed _ _ H) as [Hc Hr]. simpl in Hs.
  destruct (rsplit_at r) as [[a' b']|].
  - injection Hs as <- <-. destruct (IH _ _ eq_refl Hr) as [Ha Hb].
    split; [simpl; by rewrite Hc, Ha | exact Hb].
  - destruct (is_at c); [|discriminate]. injection Hs as <- <-. auto.
Qed.

(** A lowercase address stays lowercase under [normalize_email]. *)
Lemma normalize_email_lower_fixed (e : string) :
  lower e = e -> lower (normalize_email (Some e)) = normalize_email (Some e).
Proof.
  intros H. rewrite normalize_email_unfold.
  destruct (rsplit_at (strip e)) as [[name domain]|] eqn:Hs; [|exact H].
  apply rsplit_at_lower_fixed in Hs as [Hn _].
  - rewrite !lower_app, lower_idem, Hn. reflexivity.
  - unfold strip. by apply rstrip_lower_fixed, lstrip_lower_fixed.
Qed.

Lemma contains_at_before_at (s : string) : contains_at (before_at s) = false.
Proof.
  induction s as [|c r IH]; [reflexivity|]. simpl.
  destruct (is_at c) eqn:Hc; [reflexivity|]. simpl. by rewrite Hc.
Qed.

Lemma is_at_spec (c : ascii) : is_at c = true <-> c = "@"%char.
Proof. apply Ascii.eqb_eq. Qed.

(** ** Primary keys *)



(** ** Dictionaries *)

Lemma setdefault_lookup {V} (k : string) (v : V) (d : gmap string V) :
  setdefault k v d !! k = Some (default v (d !! k)).
Proof.
  unfold setdefault. destruct (d !! k) eqn:E; simpl; [exact E|].
  apply lookup_insert_eq.
Qed.

Lemma setdefault_lookup_ne {V} (k k' : string) (v : V) (d : gmap string V) :
  k ≠ k' -> setdefault k v d !! k' = d !! k'.
Proof.
  intros Hne. unfold setdefault. destruct (d !! k); [reflexivity|].
  by rewrite lookup_insert_ne.
Qed.

Lemma lookup_union_left_eq (a b c : Row) (f : string) :
  a !! f = b !! f -> (a ∪ c) !! f = (b ∪ c) !! f.
Proof. intros H. by rewrite !lookup_union, H. Qed.

(** ** More on the model layer *)

Section SaveMore.

Variable users_ok : gmap Z Row -> Z -> Row -> bool.


End SaveMore.

(** ** More on CustomUserManager *)

Section ManagerMore.

Variable model_defaults : Row.
Variable Role_ADMIN : string.
Variable make_password : option string -> string.
Variable hashers_check_password : string -> string -> bool.
Variable users_ok : gmap Z Row -> Z -> Row -> bool.

Local Abbreviation __create_user :=
  (CustomUserManager.__create_user model_defaults Role_ADMIN make_password users_ok).
Local Abbreviation create_user :=
  (CustomUserManager.create_user model_defaults Role_ADMIN make_password users_ok).
Local Abbreviation create_superuser :=
  (CustomUserManager.create_superuser model_defaults Role_ADMIN make_password users_ok).
Local Abbreviation save := (User.save users_ok).

(** The instance a successful [__create_user] saved: the attributes the
    function does not assign come from the keyword arguments over the
    defaults. *)
Lemma create_user_saved_row (phone_number email password username : option string)
    (extra_fields : Row) (db : DB) (u : Row) (db' : DB) :
  __create_user phone_number email password username extra_fields db
    = (Ok u, db') ->
  exists row,
    save row db = (Ok u, db')
    /\ (forall f, f ≠ "username" -> f ≠ "email" -> f ≠ "phone_number" ->
                  f ≠ "role" -> f ≠ "password" ->
                  row !! f = (extra_fields ∪ model_defaults) !! f)
    /\ row !! "phone_number" =
         (if opt_truthy phone_number
          then Some (VStr (default "" phone_number))
          else (extra_fields ∪ model_defaults) !! "phone_number").
Proof.
  rewrite create_user_steps.
  destruct (opt_truthy (py_or (py_or email phone_number) username));
    simpl; [|discriminate].
  set (uname := if opt_truthy username then _ else _).
  set (user0 := User.model model_defaults (<["username" := VStr uname]> extra_fields)).
  set (user1 := if opt_truthy email then _ else user0).
  set (user2 := if opt_truthy phone_number then _ else user1).
  assert (H0 : forall f, f ≠ "username" ->
            user0 !! f = (extra_fields ∪ model_defaults) !! f).
  { intros f Hf. unfold user0, User.model.
    rewrite !lookup_union, lookup_insert_ne by done. reflexivity. }
  assert (H1 : forall f, f ≠ "email" -> user1 !! f = user0 !! f).
  { intros f Hf. unfold user1. destruct (opt_truthy email); [|done].
    by rewrite lookup_insert_ne. }
  assert (H2 : forall f, f ≠ "phone_number" -> user2 !! f = user1 !! f).
  { intros f Hf. unfold user2. destruct (opt_truthy phone_number); [|done].
    by rewrite lookup_insert_ne. }
  assert (H2p : user2 !! "phone_number" =
            if opt_truthy phone_number
            then Some (VStr (default "" phone_number))
            else (extra_fields ∪ model_defaults) !! "phone_number").
  { unfold user2. destruct (opt_truthy phone_number); [apply lookup_insert_eq|].
    by rewrite H1, H0. }
  destruct (user2 !! "is_superuser") as [su|]; [|discriminate].
  intros Hsave. eexists. split; [exact Hsave|].
  unfold User.set_password. split.
  - intros f ? ? ? ? ?. rewrite lookup_insert_ne by done.
    destruct (truthy su); rewrite ?lookup_insert_ne by done;
      by rewrite H2, H1, H0.
  - rewrite lookup_insert_ne by done.
    destruct (truthy su); rewrite ?lookup_insert_ne by done; exact H2p.
Qed.

(** How [__create_user] raises: before anything is written, and with one of
    three exceptions. *)
Lemma create_user_err (phone_number email password username : option string)
    (extra_fields : Row) (db : DB) (e : exn) (db' : DB) :
  __create_user phone_number email password username extra_fields db
    = (Err e, db') ->
  db' = db
  /\ ((e = ParseError "Specify email or phone number"
       /\ opt_truthy (py_or (py_or email phone_number) username) = false)
      \/ (e = AttributeError "is_superuser"
          /\ (extra_fields ∪ model_defaults) !! "is_superuser" = None)
      \/ (e = IntegrityError
          /\ opt_truthy (py_or (py_or email phone_number) username) = true)).
Proof.
  rewrite create_user_steps.
  destruct (opt_truthy (py_or (py_or email phone_number) username)) eqn:Hany;
    simpl; [|intros [= <- <-]; auto].
  set (user0 := User.model model_defaults _).
  set (user2 := if opt_truthy phone_number then _ else _).
  assert (H2 : user2 !! "is_superuser"
               = (extra_fields ∪ model_defaults) !! "is_superuser").
  { unfold user2.
    destruct (opt_truthy phone_number), (opt_truthy email);
      rewrite ?lookup_insert_ne by done; unfold user0, User.model;
      apply lookup_union_left_eq; by rewrite lookup_insert_ne. }
  destruct (user2 !! "is_superuser") as [su|] eqn:Hsu.
  - intros [-> ->]%save_err. auto.
  - intros [= <- <-]. split; [reflexivity|]. right; left. by rewrite <- H2.
Qed.

Lemma py_or_falsy (a b c : option string) :
  opt_truthy (py_or (py_or a b) c) = false <->
  opt_truthy a = false /\ opt_truthy b = false /\ opt_truthy c = false.
Proof.
  destruct a as [[|? ?]|], b as [[|? ?]|], c as [[|? ?]|]; simpl;
    (split; [intros ?; try discriminate; auto | intros (? & ? & ?); congruence]).
Qed.

(** An attribute [__create_user] does not assign is, on the created user,
    what the keyword arguments or else the model defaults give. *)
Lemma create_user_attr (phone_number email password username : option string)
    (extra_fields : Row) (db : DB) (u : Row) (db' : DB) (f : string) :
  __create_user phone_number email password username extra_fields db
    = (Ok u, db') ->
  f ≠ "username" -> f ≠ "email" -> f ≠ "phone_number" -> f ≠ "role" ->
  f ≠ "password" -> f ≠ "id" ->
  u !! f = (extra_fields ∪ model_defaults) !! f.
Proof.
  intros (row & Hsave & Hrow & _)%create_user_saved_row ? ? ? ? ? ?.
  apply save_ok in Hsave as (k & _ & _ & _ & Hf & _).
  rewrite Hf by done. by apply Hrow.
Qed.

(** The keyword arguments of [create_user], after its two [setdefault]s. *)
Lemma create_user_extra_lookup (extra_fields : Row) :
  let extra :=
    setdefault "is_active" (VBool true)
      (setdefault "is_superuser" (VBool false) extra_fields) in
  extra !! "is_superuser"
    = Some (default (VBool false) (extra_fields !! "is_superuser"))
  /\ extra !! "is_active"
      = Some (default (VBool true) (extra_fields !! "is_active"))
  /\ (forall f, f ≠ "is_superuser" -> f ≠ "is_active" ->
                 extra !! f = extra_fields !! f).
Proof.
  simpl. split; [|split].
  - rewrite setdefault_lookup_ne by done. apply setdefault_lookup.
  - rewrite setdefault_lookup, setdefault_lookup_ne by done. reflexivity.
  - intros f ? ?. by rewrite !setdefault_lookup_ne.
Qed.

(** X1. A user made by [create_user] has the [is_superuser] and [is_active]
    the caller passed, and [False] and [True] when the caller passed none. *)
Theorem create_user_flag_defaults
    (phone_number email password username : option string)
    (extra_fields : Row) (db : DB) (u : Row) (db' : DB) :
  create_user phone_number email password username extra_fields db
    = (Ok u, db') ->
  u !! "is_superuser"
    = Some (default (VBool false) (extra_fields !! "is_superuser"))
  /\ u !! "is_active"
      = Some (default (VBool true) (extra_fields !! "is_active")).
Proof.
  unfold CustomUserManager.create_user. intros Hok.
  destruct (create_user_extra_lookup extra_fields) as (Hsu & Hact & _).
  split.
  - rewrite (create_user_attr _ _ _ _ _ _ _ _ "is_superuser" Hok) by done.
    by apply lookup_union_Some_l.
  - rewrite (create_user_attr _ _ _ _ _ _ _ _ "is_active" Hok) by done.
    by apply lookup_union_Some_l.
Qed.

(** X2. A username that is given (not empty) is the username of the created
    user, whatever the email and the phone number are. *)
Theorem given_username_kept
    (phone_number email password : option string) (name : string)
    (extra_fields : Row) (db : DB) (u : Row) (db' : DB) :
  nonempty name = true ->
  __create_user phone_number email password (Some name) extra_fields db
    = (Ok u, db') ->
  u !! "username" = Some (VStr name).
Proof.
  intros Hn Hok.
  destruct (create_user_ok _ _ _ _ _ _ _ _ _ _ _ _ Hok) as (_ & _ & Hname & _).
  simpl in Hname. by rewrite Hn in Hname.
Qed.

(** X3. The password stored on a created user is the hash of the one given,
    so that with a hasher that accepts its own hashes the created user
    passes [check_password] with the password it was created with. *)
Theorem created_user_checks_password
    (phone_number email username : option string) (raw : string)
    (extra_fields : Row) (db : DB) (u : Row) (db' : DB) :
  (forall p, hashers_check_password p (make_password (Some p)) = true) ->
  __create_user phone_number email (Some raw) username extra_fields db
    = (Ok u, db') ->
  u !! "password" = Some (VStr (make_password (Some raw)))
  /\ User.check_password hashers_check_password raw u = true.
Proof.
  intros Hhash Hok.
  destruct (create_user_ok _ _ _ _ _ _ _ _ _ _ _ _ Hok)
    as (_ & _ & _ & _ & Hpw & _).
  split; [exact Hpw|]. unfold User.check_password. rewrite Hpw. apply Hhash.
Qed.

(** X4. The phone number and the email are written to the created user only
    when given and not empty; otherwise the attribute is what the keyword
    arguments or the model defaults give. *)
Theorem identifiers_stored_when_given
    (phone_number email password username : option string)
    (extra_fields : Row) (db : DB) (u : Row) (db' : DB) :
  __create_user phone_number email password username extra_fields db
    = (Ok u, db') ->
  u !! "phone_number" =
    (if opt_truthy phone_number then Some (VStr (default "" phone_number))
     else (extra_fields ∪ model_defaults) !! "phone_number")
  /\ u !! "email" =
      (if opt_truthy email then Some (VStr (normalize_email email))
       else (extra_fields ∪ model_defaults) !! "email").
Proof.
  intros Hok. split.
  - destruct (create_user_saved_row _ _ _ _ _ _ _ _ Hok) as (row & Hsave & _ & Hp).
    apply save_ok in Hsave as (k & _ & _ & _ & Hf & _).
    rewrite Hf by done. exact Hp.
  - by destruct (create_user_ok _ _ _ _ _ _ _ _ _ _ _ _ Hok) as (_ & _ & _ & He & _).
Qed.

(** X5. [create_user] does not touch the role of a user that is not a
    superuser: with [is_superuser] left out or falsy, the role is the one in
    the keyword arguments, or the model default. *)
Theorem regular_user_role_untouched
    (phone_number email password username : option string)
    (extra_fields : Row) (db : DB) (u : Row) (db' : DB) :
  truthy (default (VBool false) (extra_fields !! "is_superuser")) = false ->
  create_user phone_number email password username extra_fields db
    = (Ok u, db') ->
  u !! "role" = (extra_fields ∪ model_defaults) !! "role".
Proof.
  unfold CustomUserManager.create_user. intros Hsu Hok.
  destruct (create_user_extra_lookup extra_fields) as (Hsu' & _ & Hother).
  destruct (create_user_ok _ _ _ _ _ _ _ _ _ _ _ _ Hok)
    as (_ & (su & Hsu1 & _ & Hrole) & _).
  rewrite (lookup_union_Some_l _ model_defaults _ _ Hsu') in Hsu1.
  injection Hsu1 as <-. rewrite Hsu in Hrole. rewrite Hrole.
  apply lookup_union_left_eq. by apply Hother.
Qed.

(** The keyword arguments of [create_superuser], after its two
    [setdefault]s. *)
Lemma create_superuser_extra_lookup (extra_fields : Row) :
  dict_get "is_superuser"
    (setdefault "is_active" (VBool true)
       (setdefault "is_superuser" (VBool true) extra_fields))
  = default (VBool true) (extra_fields !! "is_superuser").
Proof.
  unfold dict_get.
  by rewrite setdefault_lookup_ne, setdefault_lookup.
Qed.

(** X6. [create_superuser] raises its [ValueError] exactly when the caller
    passed an [is_superuser] that is falsy ([False], [None], [0], ['']). *)
Theorem create_superuser_value_error_iff
    (email phone_number password username : option string)
    (extra_fields : Row) (db : DB) :
  (exists v, extra_fields !! "is_superuser" = Some v /\ truthy v = false)
  <-> create_superuser email phone_number password username extra_fields db
      = (Err (ValueError "is_superuser must be True"), db).
Proof.
  unfold CustomUserManager.create_superuser.
  rewrite create_superuser_extra_lookup. split.
  - intros (v & -> & Hv). simpl. by rewrite Hv.
  - destruct (extra_fields !! "is_superuser") as [v|]; simpl.
    + destruct (truthy v) eqn:Hv; simpl; [|eauto].
      intros (_ & [[[=] _]|[[[=] _]|[[=] _]]])%create_user_err.
    + intros (_ & [[[=] _]|[[[=] _]|[[=] _]]])%create_user_err.
Qed.

(** X7. A creation call that raises has written nothing: the database is
    the one the call found, for [create_user] and for [create_superuser]. *)
Theorem failed_creation_writes_nothing
    (a b password username : option string)
    (extra_fields : Row) (db : DB) (e : exn) (db' : DB) :
  (create_user a b password username extra_fields db = (Err e, db') -> db' = db)
  /\ (create_superuser a b password username extra_fields db = (Err e, db') ->
      db' = db).
Proof.
  split.
  - unfold CustomUserManager.create_user. by intros [-> _]%create_user_err.
  - unfold CustomUserManager.create_superuser.
    destruct (negb _); [by intros [= <- <-]|].
    by intros [-> _]%create_user_err.
Qed.


(** X9. A username derived from the email or the phone number has no ['@']
    in it. *)
Theorem derived_username_has_no_at
    (phone_number email password username : option string)
    (extra_fields : Row) (db : DB) (u : Row) (db' : DB) :
  opt_truthy username = false ->
  __create_user phone_number email password username extra_fields db
    = (Ok u, db') ->
  exists name, u !! "username" = Some (VStr name) /\ contains_at name = false.
Proof.
  intros Hu Hok.
  destruct (create_user_ok _ _ _ _ _ _ _ _ _ _ _ _ Hok) as (_ & _ & Hname & _).
  rewrite Hu in Hname. eexists. split; [exact Hname|].
  destruct (contains_at _) eqn:Hc; [apply contains_at_before_at | exact Hc].
Qed.

(** X10. The derived username is the empty string exactly when the
    identifier (the normalized email, or the phone number) begins with
    ['@']: such a call creates a user with an empty username. *)
Theorem empty_username_iff_leading_at
    (phone_number email password username : option string)
    (extra_fields : Row) (db : DB) (u : Row) (db' : DB) :
  opt_truthy username = false ->
  __create_user phone_number email password username extra_fields db
    = (Ok u, db') ->
  let value :=
    if opt_truthy email then normalize_email email
    else default "" phone_number in
  u !! "username" = Some (VStr "") <-> exists rest, value = String "@" rest.
Proof.
  intros Hu Hok value.
  destruct (create_user_ok _ _ _ _ _ _ _ _ _ _ _ _ Hok) as (Hany & _ & Hname & _).
  rewrite Hu in Hname. fold value in Hname. rewrite Hname.
  assert (Hne : nonempty value = true).
  { destruct (identifier_present _ _ _ Hany Hu) as [_ Hid]. unfold value.
    unfold py_or in Hid. destruct (opt_truthy email) eqn:He.
    - by apply normalize_email_nonempty.
    - destruct phone_number; [exact Hid | discriminate]. }
  destruct value as [|c r]; [discriminate|]. simpl.
  destruct (is_at c) eqn:Hc; simpl.
  - apply is_at_spec in Hc as ->. split; eauto.
  - split.
    + destruct (contains_at r); intros [=].
    + intros [rest [= -> _]]. discriminate.
Qed.

(** X11. With an [is_superuser] that is given and truthy, [create_superuser]
    does what [create_user] does with the same arguments (email and phone
    number in the other order). *)
Theorem create_superuser_is_create_user
    (email phone_number password username : option string)
    (extra_fields : Row) (v : pyval) (db : DB) :
  extra_fields !! "is_superuser" = Some v ->
  truthy v = true ->
  create_superuser email phone_number password username extra_fields db
  = create_user phone_number email password username extra_fields db.
Proof.
  intros Hv Ht.
  unfold CustomUserManager.create_superuser, CustomUserManager.create_user.
  rewrite create_superuser_extra_lookup, Hv. simpl. rewrite Ht. simpl.
  unfold setdefault at 2 4. by rewrite Hv.
Qed.


End ManagerMore.

(** ** More on the serializers *)

Lemma dict_pop_missing {V} (k : string) (d : gmap string V) (db : DB) :
  d !! k = None -> dict_pop k d db = (Err (KeyError k), db).
Proof. unfold dict_pop. by intros ->. Qed.

(** What a [validate_email] that returned has found. *)
Lemma validate_email_ok (value e : string) (db db' : DB) :
  RegistrationSerializer.validate_email value db = (Ok e, db') ->
  e = lower value /\ db' = db /\ email_exists (lower value) db = false.
Proof.
  unfold RegistrationSerializer.validate_email.
  destruct (email_exists (lower value) db) eqn:Hex; [discriminate|].
  intros [= <- <-]. auto.
Qed.

(** X13. The email [validate_email] returns is in lower case and passes
    [validate_email] again unchanged. *)
Theorem validate_email_idempotent (value e : string) (db db' : DB) :
  RegistrationSerializer.validate_email value db = (Ok e, db') ->
  lower e = e
  /\ RegistrationSerializer.validate_email e db = (Ok e, db).
Proof.
  intros (-> & _ & Hex)%validate_email_ok.
  unfold RegistrationSerializer.validate_email.
  rewrite lower_idem, Hex. auto.
Qed.

Section RegistrationMore.

Variable model_defaults : Row.
Variable Role_ADMIN : string.
Variable make_password : option string -> string.
Variable users_ok : gmap Z Row -> Z -> Row -> bool.

Local Abbreviation __create_user :=
  (CustomUserManager.__create_user model_defaults Role_ADMIN make_password users_ok).

(** X14. Registration keeps emails in lower case: the email
    [validate_email] returned, given to the manager, is stored in lower
    case. *)
Theorem registered_email_is_lowercase
    (value e : string) (db0 db0' : DB)
    (phone_number password username : option string)
    (extra_fields : Row) (db : DB) (u : Row) (db' : DB) :
  RegistrationSerializer.validate_email value db0 = (Ok e, db0') ->
  nonempty e = true ->
  __create_user phone_number (Some e) password username extra_fields db
    = (Ok u, db') ->
  exists stored, u !! "email" = Some (VStr stored) /\ lower stored = stored.
Proof.
  intros (He & _ & _)%validate_email_ok Hne Hok.
  assert (Hlow : lower e = e) by (rewrite He; apply lower_idem).
  destruct (create_user_ok _ _ _ _ _ _ _ _ _ _ _ _ Hok) as (_ & _ & _ & Hemail & _).
  simpl in Hemail. rewrite Hne in Hemail.
  eexists. split; [exact Hemail|]. by apply normalize_email_lower_fixed.
Qed.

(** X15. A user the manager stores with capitals left in the email (in the
    local part) is not seen by the uniqueness check of registration:
    whatever email [validate_email] accepted before the creation, it
    accepts after it, the very address of the new user included. *)
Theorem mixed_case_email_not_seen_by_registration
    (phone_number password username : option string) (e : string)
    (extra_fields : Row) (db : DB) (u : Row) (db' : DB) (value x : string) :
  nonempty e = true ->
  lower (normalize_email (Some e)) ≠ normalize_email (Some e) ->
  __create_user phone_number (Some e) password username extra_fields db
    = (Ok u, db') ->
  RegistrationSerializer.validate_email value db = (Ok x, db) ->
  RegistrationSerializer.validate_email value db' = (Ok (lower value), db').
Proof.
  intros Hne Hmixed Hok.
  destruct (create_user_ok _ _ _ _ _ _ _ _ _ _ _ _ Hok) as (_ & _ & _ & Hemail & _).
  simpl in Hemail. rewrite Hne in Hemail.
  destruct (create_user_saved_row _ _ _ _ _ _ _ _ _ _ _ _ Hok) as (row & Hsave & _).
  apply save_ok in Hsave as (k & _ & Hus & _).
  unfold RegistrationSerializer.validate_email.
  destruct (email_exists (lower value) db) eqn:Hex; [discriminate|]. intros _.
  destruct (email_exists (lower value) db') eqn:Hex'; [|reflexivity].
  apply email_exists_spec in Hex' as (k' & u' & Hk' & Hu').
  rewrite Hus in Hk'. destruct (decide (k = k')) as [<-|Hkk].
  - rewrite lookup_insert_eq in Hk'. injection Hk' as <-.
    rewrite Hemail in Hu'. injection Hu' as Hu'.
    exfalso. apply Hmixed. by rewrite Hu', lower_idem.
  - rewrite lookup_insert_ne in Hk' by done.
    assert (email_exists (lower value) db = true)
      by (apply email_exists_spec; eauto).
    congruence.
Qed.

End RegistrationMore.

Section ChangePasswordMore.

Variable make_password : option string -> string.
Variable hashers_check_password : string -> string -> bool.
Variable users_ok : gmap Z Row -> Z -> Row -> bool.

Local Abbreviation validate :=
  (ChangePasswordSerializer.validate hashers_check_password).
Local Abbreviation update :=
  (ChangePasswordSerializer.update make_password users_ok).
Local Abbreviation check_password := (User.check_password hashers_check_password).

(** What a [validate] that returned has found and done. *)
Lemma validate_ok (current_user : Row) (attrs attrs' : gmap string string)
    (db db' : DB) :
  validate current_user attrs db = (Ok attrs', db') ->
  exists old, attrs !! "old_password" = Some old
    /\ check_password old current_user = true
    /\ attrs' = delete "old_password" attrs /\ db' = db.
Proof.
  unfold ChangePasswordSerializer.validate, dict_pop.
  destruct (attrs !! "old_password") as [old|]; [|discriminate].
  unfold mbind, M_bind, mret, M_ret; simpl.
  destruct (check_password old current_user) eqn:Hc; simpl; [|discriminate].
  intros [= <- <-]. eauto.
Qed.

(** X16. A password change that went through, [validate] and then
    [update] on what [validate] returned: the old password was the right
    one, the returned user passes [check_password] with the new password
    (for a hasher that accepts its own hashes), no attribute but the
    password changed, and the old password was not handed on to [update]. *)
Theorem password_change_round_trip
    (current_user instance : Row) (attrs attrs' : gmap string string)
    (db db1 : DB) (u : Row) (db2 : DB) :
  (forall p, hashers_check_password p (make_password (Some p)) = true) ->
  validate current_user attrs db = (Ok attrs', db1) ->
  update instance attrs' db1 = (Ok u, db2) ->
  exists old new,
    attrs !! "old_password" = Some old
    /\ attrs !! "new_password" = Some new
    /\ check_password old current_user = true
    /\ attrs' !! "old_password" = None
    /\ check_password new u = true
    /\ (forall f, f ≠ "password" -> f ≠ "id" -> u !! f = instance !! f)
    /\ exists k, users db2 !! k = Some u.
Proof.
  intros Hhash (old & Hold & Hc & -> & ->)%validate_ok.
  unfold ChangePasswordSerializer.update, dict_pop.
  destruct (delete "old_password" attrs !! "new_password") as [new|] eqn:Hnew;
    [|discriminate].
  rewrite lookup_delete_ne in Hnew by done.
  unfold mbind, M_bind, mret, M_ret; simpl. intros Hsave.
  pose proof (save_stored _ _ _ _ _ Hsave) as Hst.
  apply save_ok in Hsave as (k & _ & _ & _ & Hf & _).
  exists old, new. split; [exact Hold|]. split; [exact Hnew|].
  split; [exact Hc|]. split; [apply lookup_delete_eq|].
  split.
  { unfold User.check_password. rewrite Hf by done.
    unfold User.set_password. rewrite lookup_insert_eq. apply Hhash. }
  split; [|exact Hst].
  intros f ? ?. rewrite Hf by done. unfold User.set_password.
  by rewrite lookup_insert_ne.
Qed.

End ChangePasswordMore.

Section MissingKeys.

Variable make_password : option string -> string.
Variable hashers_check_password : string -> string -> bool.
Variables Role_ADMIN Role_MANAGER : string.
Variable Role_choices : list (string * string).
Variable users_ok : gmap Z Row -> Z -> Row -> bool.

(** X17. A missing key is a [KeyError] and no write: [old_password] in
    [ChangePasswordSerializer.validate], [new_password] in its [update],
    [role] in [UserUpdateRoleSerializer.update]. *)
Theorem missing_key_raises_key_error (instance : Row)
    (data : gmap string string) (db : DB) :
  (data !! "old_password" = None ->
   ChangePasswordSerializer.validate hashers_check_password instance data db
   = (Err (KeyError "old_password"), db))
  /\ (data !! "new_password" = None ->
      ChangePasswordSerializer.update make_password users_ok instance data db
      = (Err (KeyError "new_password"), db))
  /\ (data !! "role" = None ->
      UserUpdateRoleSerializer.update Role_ADMIN Role_MANAGER Role_choices
        users_ok instance data db
      = (Err (KeyError "role"), db)).
Proof.
  split; [|split]; intros Hk.
  - unfold ChangePasswordSerializer.validate.
    by rewrite (bind_err _ _ _ _ _ (dict_pop_missing _ _ db Hk)).
  - unfold ChangePasswordSerializer.update.
    by rewrite (bind_err _ _ _ _ _ (dict_pop_missing _ _ db Hk)).
  - unfold UserUpdateRoleSerializer.update.
    by rewrite (bind_err _ _ _ _ _ (dict_pop_missing _ _ db Hk)).
Qed.

End MissingKeys.

Section UserUpdateMore.

Variable users_ok : gmap Z Row -> Z -> Row -> bool.
Variable profile_is_valid : Row -> Row -> M Row.
Variable profile_save : Row -> Row -> M unit.

Local Abbreviation update :=
  (UserUpdateSerializer.update users_ok profile_is_valid profile_save).

(** X18. Without profile data, [None] or an empty dictionary, the update
    is the user update alone inside the transaction: the profile
    serializer is not run, whatever it is. *)
Theorem update_without_profile_data (instance : Row)
    (validated_data : UpdateData) (db : DB) :
  dict_truthy (ud_profile validated_data) = false ->
  update instance validated_data db
  = match ModelSerializer_update users_ok instance (ud_fields validated_data) db
    with
    | (Ok u, db1) => (Ok u, db1)
    | (Err e, _) => (Err e, db)
    end.
Proof.
  intros Hp. unfold UserUpdateSerializer.update, atomic.
  unfold mbind at 1, M_bind at 1.
  destruct (ModelSerializer_update _ _ _ db) as [[u|e] db1]; [|reflexivity].
  rewrite Hp. reflexivity.
Qed.

(** X19. When the user row is refused, or when the user has no profile to
    update, the update raises that exception ([IntegrityError],
    [DoesNotExist]) without running the profile serializer, and the
    database is as the call found it. *)
Theorem update_fails_before_profile (instance : Row)
    (validated_data : UpdateData) (db : DB) :
  (forall e db1,
     ModelSerializer_update users_ok instance (ud_fields validated_data) db
       = (Err e, db1) ->
     e = IntegrityError /\ update instance validated_data db = (Err e, db))
  /\ (forall u db1,
        dict_truthy (ud_profile validated_data) = true ->
        ModelSerializer_update users_ok instance (ud_fields validated_data) db
          = (Ok u, db1) ->
        profiles db1 !! default 0%Z (match u !! "id" with
                                     | Some (VInt k) => Some k
                                     | _ => None
                                     end) = None ->
        update instance validated_data db = (Err DoesNotExist, db)).
Proof.
  split.
  - intros e db1 Hu. split.
    + unfold ModelSerializer_update in Hu. by apply save_err in Hu as [-> _].
    + unfold UserUpdateSerializer.update.
      apply atomic_err with (db1 := db1). by apply bind_err.
  - intros u db1 Hp Hu Hnone.
    unfold UserUpdateSerializer.update. apply atomic_err with (db1 := db1).
    rewrite (bind_ok _ _ _ _ _ Hu), Hp.
    erewrite bind_err; [reflexivity|]. apply bind_err.
    unfold ModelSerializer_update in Hu.
    apply save_ok in Hu as (k & Hid & _). rewrite Hid in Hnone. simpl in Hnone.
    unfold User.profile. by rewrite Hid, Hnone.
Qed.

(** X20. On the user an update returns, every validated field has its new
    value and every other attribute (the primary key apart) the value the
    instance had. *)
Theorem updated_user_fields (instance : Row) (validated_data : UpdateData)
    (db : DB) (u : Row) (db' : DB) (f : string) :
  update instance validated_data db = (Ok u, db') ->
  f ≠ "id" ->
  u !! f = match ud_fields validated_data !! f with
           | Some v => Some v
           | None => instance !! f
           end.
Proof.
  unfold UserUpdateSerializer.update, atomic.
  unfold mbind at 1, M_bind at 1.
  destruct (ModelSerializer_update _ _ _ db) as [[u1|e1] db1] eqn:Hu;
    [|discriminate].
  unfold mbind at 1, M_bind at 1.
  match goal with
  | |- context [(if ?c then ?a else ?b) db1] =>
      destruct ((if c then a else b) db1) as [[[]|e] db2]; [|discriminate]
  end.
  intros [= <- <-] Hf.
  unfold ModelSerializer_update in Hu.
  apply save_ok in Hu as (k & _ & _ & _ & Hsame & _).
  rewrite Hsame by done. rewrite lookup_union.
  destruct (ud_fields validated_data !! f), (instance !! f); reflexivity.
Qed.

End UserUpdateMore.

Section RoleMore.

Variables Role_ADMIN Role_MANAGER : string.
Variable Role_choices : list (string * string).
Variable users_ok : gmap Z Row -> Z -> Row -> bool.

Local Abbreviation update :=
  (UserUpdateRoleSerializer.update Role_ADMIN Role_MANAGER Role_choices users_ok).

(** X21. The staff flag outlives the role: after a role update to ADMIN or
    MANAGER, a second role update to any role returns a user that has the
    new role and is still [is_staff]. *)
Theorem staff_flag_survives_role_change
    (instance : Row) (vd1 vd2 : gmap string string) (r1 r2 : string)
    (db : DB) (u1 : Row) (db1 : DB) (u2 : Row) (db2 : DB) :
  vd1 !! "role" = Some r1 ->
  vd2 !! "role" = Some r2 ->
  r1 = Role_ADMIN \/ r1 = Role_MANAGER ->
  update instance vd1 db = (Ok u1, db1) ->
  update u1 vd2 db1 = (Ok u2, db2) ->
  u1 !! "is_staff" = Some (VBool true)
  /\ u2 !! "is_staff" = Some (VBool true)
  /\ u2 !! "role" = Some (VStr r2).
Proof.
  intros H1 H2 Hr Hu1 Hu2.
  rewrite (update_role_steps _ _ _ _ _ _ _ _ H1) in Hu1.
  rewrite (update_role_steps _ _ _ _ _ _ _ _ H2) in Hu2.
  apply save_ok in Hu1 as (k1 & _ & _ & _ & Hf1 & _).
  apply save_ok in Hu2 as (k2 & _ & _ & _ & Hf2 & _).
  assert (Hs1 : u1 !! "is_staff" = Some (VBool true)).
  { rewrite Hf1, lookup_insert_ne by done.
    assert (String.eqb r1 Role_ADMIN || String.eqb r1 Role_MANAGER = true) as ->.
    { destruct Hr as [->| ->]; rewrite String.eqb_refl; [reflexivity|].
      apply orb_true_r. }
    apply lookup_insert_eq. }
  split; [exact Hs1|]. split.
  - rewrite Hf2, lookup_insert_ne by done.
    destruct (String.eqb r2 Role_ADMIN || String.eqb r2 Role_MANAGER);
      [apply lookup_insert_eq | exact Hs1].
  - rewrite Hf2 by done. apply lookup_insert_eq.
Qed.

End RoleMore.

(** * The further properties on concrete inputs *)

Lemma fst_err_returned {A} (r : result A * DB) (e : exn) :
  fst r = Err e -> r = (Err e, snd r).
Proof. destruct r as [x db]. simpl. by intros ->. Qed.

Lemma sample_hasher_accepts_own_hash (p : string) :
  Sample.check_password p (Sample.make_password (Some p)) = true.
Proof. unfold Sample.check_password, Sample.make_password. apply String.eqb_refl. Qed.


Lemma sample_bob_accepted (value : string) :
  email_exists (lower value) Sample.db1 = false ->
  RegistrationSerializer.validate_email value Sample.db1
  = (Ok (lower value), Sample.db1).
Proof. unfold RegistrationSerializer.validate_email. by intros ->. Qed.

Local Ltac run_ok := apply is_ok_returned; vm_compute; reflexivity.

(** X1 on an input: an inactive user is asked for. *)
Lemma create_user_flag_defaults_witness :
  let r := run_create_user None (Some "bob@example.com") (Some "pw") None
             {[ "is_active" := VBool false ]} Sample.db1 in
  r = (Ok (returned ∅ r), snd r)
  /\ returned ∅ r !! "is_superuser" = Some (VBool false)
  /\ returned ∅ r !! "is_active" = Some (VBool false).
Proof.
  intros r. assert (Hr : r = (Ok (returned ∅ r), snd r)) by run_ok.
  split; [exact Hr|].
  exact (create_user_flag_defaults
           Sample.defaults Sample.ADMIN Sample.make_password Sample.users_ok
           None (Some "bob@example.com") (Some "pw") None
           {[ "is_active" := VBool false ]} Sample.db1 _ _ Hr).
Defined.

(** X2 on an input: a username next to an email. *)
Lemma given_username_kept_witness :
  let r := run__create_user None (Some "bob@example.com") (Some "pw")
             (Some "robert") {[ "is_superuser" := VBool false ]} Sample.db1 in
  r = (Ok (returned ∅ r), snd r)
  /\ returned ∅ r !! "username" = Some (VStr "robert").
Proof.
  intros r. assert (Hr : r = (Ok (returned ∅ r), snd r)) by run_ok.
  split; [exact Hr|].
  exact (given_username_kept
           Sample.defaults Sample.ADMIN Sample.make_password Sample.users_ok
           None (Some "bob@example.com") (Some "pw") "robert"
           {[ "is_superuser" := VBool false ]} Sample.db1 _ _ eq_refl Hr).
Defined.

(** X3 on an input. *)
Lemma created_user_checks_password_witness :
  let r := run__create_user None (Some "bob@example.com") (Some "pw") None
             {[ "is_superuser" := VBool false ]} Sample.db1 in
  r = (Ok (returned ∅ r), snd r)
  /\ User.check_password Sample.check_password "pw" (returned ∅ r) = true.
Proof.
  intros r. assert (Hr : r = (Ok (returned ∅ r), snd r)) by run_ok.
  split; [exact Hr|].
  exact (proj2 (created_user_checks_password
                  Sample.defaults Sample.ADMIN Sample.make_password
                  Sample.check_password Sample.users_ok
                  None (Some "bob@example.com") None "pw"
                  {[ "is_superuser" := VBool false ]} Sample.db1 _ _
                  sample_hasher_accepts_own_hash Hr)).
Defined.

(** X4 on an input: a phone number and no email. *)
Lemma identifiers_stored_when_given_witness :
  let r := run__create_user (Some "+100200") None (Some "pw") None
             {[ "is_superuser" := VBool false ]} Sample.db1 in
  r = (Ok (returned ∅ r), snd r)
  /\ returned ∅ r !! "phone_number" = Some (VStr "+100200")
  /\ returned ∅ r !! "email" = Some (VStr "").
Proof.
  intros r. assert (Hr : r = (Ok (returned ∅ r), snd r)) by run_ok.
  split; [exact Hr|].
  destruct (identifiers_stored_when_given
              Sample.defaults Sample.ADMIN Sample.make_password Sample.users_ok
              (Some "+100200") None (Some "pw") None
              {[ "is_superuser" := VBool false ]} Sample.db1 _ _ Hr)
    as [Hp He].
  split; [exact Hp|]. rewrite He. vm_compute. reflexivity.
Defined.

(** X5 on an input: a plain user gets the default role. *)
Lemma regular_user_role_untouched_witness :
  let r := run_create_user None (Some "bob@example.com") (Some "pw") None ∅
             Sample.db1 in
  r = (Ok (returned ∅ r), snd r)
  /\ returned ∅ r !! "role" = Some (VStr "customer").
Proof.
  intros r. assert (Hr : r = (Ok (returned ∅ r), snd r)) by run_ok.
  split; [exact Hr|].
  assert (Hsu : truthy (default (VBool false) ((∅ : Row) !! "is_superuser"))
                = false) by (rewrite lookup_empty; reflexivity).
  rewrite (regular_user_role_untouched
             Sample.defaults Sample.ADMIN Sample.make_password Sample.users_ok
             None (Some "bob@example.com") (Some "pw") None ∅ Sample.db1 _ _
             Hsu Hr).
  vm_compute. reflexivity.
Defined.

(** X6 on an input: [is_superuser=0]. *)
Lemma create_superuser_value_error_iff_witness :
  run_create_superuser (Some "root@example.com") None (Some "pw") None
    {[ "is_superuser" := VInt 0 ]} Sample.db1
  = (Err (ValueError "is_superuser must be True"), Sample.db1).
Proof.
  apply (proj1 (create_superuser_value_error_iff
                  Sample.defaults Sample.ADMIN Sample.make_password
                  Sample.users_ok (Some "root@example.com") None (Some "pw")
                  None {[ "is_superuser" := VInt 0 ]} Sample.db1)).
  exists (VInt 0). split; [apply lookup_singleton_eq | reflexivity].
Defined.

(** X7 on an input: the username is taken, the table refuses the row. *)
Lemma failed_creation_writes_nothing_witness :
  let r := run_create_user None None (Some "pw") (Some "alice") ∅ Sample.db1 in
  r = (Err IntegrityError, snd r) /\ snd r = Sample.db1.
Proof.
  intros r.
  assert (Hr : r = (Err IntegrityError, snd r))
    by (apply fst_err_returned; vm_compute; reflexivity).
  split; [exact Hr|].
  exact (proj1 (failed_creation_writes_nothing
                  Sample.defaults Sample.ADMIN Sample.make_password
                  Sample.users_ok None None (Some "pw") (Some "alice") ∅
                  Sample.db1 IntegrityError (snd r)) Hr).
Defined.


(** X9 on an input. *)
Lemma derived_username_has_no_at_witness :
  let r := run__create_user None (Some "bob@example.com") (Some "pw") None
             {[ "is_superuser" := VBool false ]} Sample.db1 in
  r = (Ok (returned ∅ r), snd r)
  /\ exists name, returned ∅ r !! "username" = Some (VStr name)
                  /\ contains_at name = false.
Proof.
  intros r. assert (Hr : r = (Ok (returned ∅ r), snd r)) by run_ok.
  split; [exact Hr|].
  exact (derived_username_has_no_at
           Sample.defaults Sample.ADMIN Sample.make_password Sample.users_ok
           None (Some "bob@example.com") (Some "pw") None
           {[ "is_superuser" := VBool false ]} Sample.db1 _ _ eq_refl Hr).
Defined.

(** X10 on an input: a phone number that begins with ['@']. *)
Lemma empty_username_iff_leading_at_witness :
  let r := run__create_user (Some "@home") None (Some "pw") None
             {[ "is_superuser" := VBool false ]} Sample.db1 in
  r = (Ok (returned ∅ r), snd r)
  /\ returned ∅ r !! "username" = Some (VStr "").
Proof.
  intros r. assert (Hr : r = (Ok (returned ∅ r), snd r)) by run_ok.
  split; [exact Hr|].
  apply (proj2 (empty_username_iff_leading_at
                  Sample.defaults Sample.ADMIN Sample.make_password
                  Sample.users_ok (Some "@home") None (Some "pw") None
                  {[ "is_superuser" := VBool false ]} Sample.db1 _ _
                  eq_refl Hr)).
  exists "home". reflexivity.
Defined.

(** X11 on an input. *)
Lemma create_superuser_is_create_user_witness :
  run_create_superuser (Some "root@example.com") None (Some "pw") None
    {[ "is_superuser" := VBool true ]} Sample.db1
  = run_create_user None (Some "root@example.com") (Some "pw") None
      {[ "is_superuser" := VBool true ]} Sample.db1.
Proof.
  exact (create_superuser_is_create_user
           Sample.defaults Sample.ADMIN Sample.make_password Sample.users_ok
           (Some "root@example.com") None (Some "pw") None
           {[ "is_superuser" := VBool true ]} (VBool true) Sample.db1
           (lookup_singleton_eq _ _) eq_refl).
Defined.


(** X13 on an input. *)
Lemma validate_email_idempotent_witness :
  RegistrationSerializer.validate_email "Carol@Example.COM" Sample.db1
    = (Ok "carol@example.com", Sample.db1)
  /\ RegistrationSerializer.validate_email "carol@example.com" Sample.db1
     = (Ok "carol@example.com", Sample.db1).
Proof.
  assert (H : RegistrationSerializer.validate_email "Carol@Example.COM" Sample.db1
              = (Ok "carol@example.com", Sample.db1))
    by (apply (sample_bob_accepted "Carol@Example.COM"); vm_compute; reflexivity).
  split; [exact H|].
  exact (proj2 (validate_email_idempotent _ _ _ _ H)).
Defined.

(** X14 on an input: registration of an address typed in capitals. *)
Lemma registered_email_is_lowercase_witness :
  let r := run__create_user None (Some "carol@example.com") (Some "pw") None
             {[ "is_superuser" := VBool false ]} Sample.db1 in
  RegistrationSerializer.validate_email "Carol@Example.COM" Sample.db1
    = (Ok "carol@example.com", Sample.db1)
  /\ r = (Ok (returned ∅ r), snd r)
  /\ exists stored, returned ∅ r !! "email" = Some (VStr stored)
                    /\ lower stored = stored.
Proof.
  intros r.
  assert (H : RegistrationSerializer.validate_email "Carol@Example.COM" Sample.db1
              = (Ok "carol@example.com", Sample.db1))
    by (apply (sample_bob_accepted "Carol@Example.COM"); vm_compute; reflexivity).
  assert (Hr : r = (Ok (returned ∅ r), snd r)) by run_ok.
  split; [exact H|]. split; [exact Hr|].
  exact (registered_email_is_lowercase
           Sample.defaults Sample.ADMIN Sample.make_password Sample.users_ok
           _ _ _ _ None (Some "pw") None {[ "is_superuser" := VBool false ]}
           Sample.db1 _ _ H eq_refl Hr).
Defined.

(** X15 on an input: after the manager stored [Bob@example.com], the same
    address still passes the check of registration. *)
Lemma mixed_case_email_not_seen_by_registration_witness :
  let r := run__create_user None (Some "Bob@example.com") (Some "pw") None
             {[ "is_superuser" := VBool false ]} Sample.db1 in
  r = (Ok (returned ∅ r), snd r)
  /\ returned ∅ r !! "email" = Some (VStr "Bob@example.com")
  /\ RegistrationSerializer.validate_email "Bob@example.com" (snd r)
     = (Ok "bob@example.com", snd r).
Proof.
  intros r.
  assert (Hr : r = (Ok (returned ∅ r), snd r)) by run_ok.
  assert (H : RegistrationSerializer.validate_email "Bob@example.com" Sample.db1
              = (Ok "bob@example.com", Sample.db1))
    by (apply (sample_bob_accepted "Bob@example.com"); vm_compute; reflexivity).
  assert (Hm : lower (normalize_email (Some "Bob@example.com"))
               ≠ normalize_email (Some "Bob@example.com"))
    by (vm_compute; discriminate).
  split; [exact Hr|]. split; [vm_compute; reflexivity|].
  exact (mixed_case_email_not_seen_by_registration
           Sample.defaults Sample.ADMIN Sample.make_password Sample.users_ok
           None (Some "pw") None "Bob@example.com"
           {[ "is_superuser" := VBool false ]} Sample.db1 _ _
           "Bob@example.com" _ eq_refl Hm Hr H).
Defined.

(** X16 on an input: the registered user changes the password. *)
Lemma password_change_round_trip_witness :
  let attrs : gmap string string :=
    {[ "old_password" := "secret"; "new_password" := "fresh" ]} in
  let v := ChangePasswordSerializer.validate Sample.check_password
             Sample.alice attrs Sample.db1 in
  let r := ChangePasswordSerializer.update Sample.make_password Sample.users_ok
             Sample.alice (returned ∅ v) (snd v) in
  v = (Ok (returned ∅ v), snd v)
  /\ r = (Ok (returned ∅ r), snd r)
  /\ User.check_password Sample.check_password "fresh" (returned ∅ r) = true.
Proof.
  intros attrs v r.
  assert (Hv : v = (Ok (returned ∅ v), snd v)) by run_ok.
  assert (Hr : r = (Ok (returned ∅ r), snd r)) by run_ok.
  split; [exact Hv|]. split; [exact Hr|].
  destruct (password_change_round_trip
              Sample.make_password Sample.check_password Sample.users_ok
              Sample.alice Sample.alice attrs _ Sample.db1 _ _ _
              sample_hasher_accepts_own_hash Hv Hr)
    as (old & new & _ & Hnew & _ & _ & Hc & _).
  assert (new = "fresh") as <-; [|exact Hc].
  assert (attrs !! "new_password" = Some "fresh") by (vm_compute; reflexivity).
  congruence.
Defined.

(** X17 on an input: an empty dictionary. *)
Lemma missing_key_raises_key_error_witness :
  ChangePasswordSerializer.validate Sample.check_password Sample.alice ∅
    Sample.db1 = (Err (KeyError "old_password"), Sample.db1)
  /\ ChangePasswordSerializer.update Sample.make_password Sample.users_ok
       Sample.alice ∅ Sample.db1 = (Err (KeyError "new_password"), Sample.db1)
  /\ UserUpdateRoleSerializer.update Sample.ADMIN Sample.MANAGER Sample.choices
       Sample.users_ok Sample.alice ∅ Sample.db1
     = (Err (KeyError "role"), Sample.db1).
Proof.
  destruct (missing_key_raises_key_error
              Sample.make_password Sample.check_password
              Sample.ADMIN Sample.MANAGER Sample.choices Sample.users_ok
              Sample.alice ∅ Sample.db1) as (H1 & H2 & H3).
  split; [apply H1, lookup_empty|]. split; [apply H2, lookup_empty|].
  apply H3, lookup_empty.
Defined.

(** X18 on an input: an empty dictionary of profile data. *)
Lemma update_without_profile_data_witness :
  let vd := mkUpdateData {[ "first_name" := VStr "Al" ]} (Some ∅) in
  let r := UserUpdateSerializer.update Sample.users_ok Sample.profile_is_valid
             Sample.profile_save Sample.alice vd Sample.db1 in
  r = (Ok (returned ∅ r), snd r)
  /\ r = ModelSerializer_update Sample.users_ok Sample.alice (ud_fields vd)
           Sample.db1.
Proof.
  intros vd r.
  assert (Hr : r = (Ok (returned ∅ r), snd r)) by run_ok.
  split; [exact Hr|].
  pose proof (update_without_profile_data
                Sample.users_ok Sample.profile_is_valid Sample.profile_save
                Sample.alice vd Sample.db1 eq_refl) as H.
  fold r in H. rewrite H.
  destruct (ModelSerializer_update _ _ _ _) as [[u|e] db1] eqn:Hm;
    [reflexivity|].
  rewrite H in Hr. discriminate.
Defined.

(** X19 on an input: a second user asks for the username of the first. *)
Lemma update_fails_before_profile_witness :
  let bob := <["id" := VInt 2]> Sample.alice in
  let vd := mkUpdateData {[ "username" := VStr "alice" ]} None in
  let m := ModelSerializer_update Sample.users_ok bob (ud_fields vd)
             Sample.db1 in
  m = (Err IntegrityError, snd m)
  /\ UserUpdateSerializer.update Sample.users_ok Sample.profile_is_valid
       Sample.profile_save bob vd Sample.db1
     = (Err IntegrityError, Sample.db1).
Proof.
  intros bob vd m.
  assert (Hm : m = (Err IntegrityError, snd m))
    by (apply fst_err_returned; vm_compute; reflexivity).
  split; [exact Hm|].
  exact (proj2 (proj1 (update_fails_before_profile
                         Sample.users_ok Sample.profile_is_valid
                         Sample.profile_save bob vd Sample.db1) _ _ Hm)).
Defined.

(** X20 on an input: a new first name. *)
Lemma updated_user_fields_witness :
  let vd := mkUpdateData {[ "first_name" := VStr "Al" ]} None in
  let r := UserUpdateSerializer.update Sample.users_ok Sample.profile_is_valid
             Sample.profile_save Sample.alice vd Sample.db1 in
  r = (Ok (returned ∅ r), snd r)
  /\ returned ∅ r !! "first_name" = Some (VStr "Al")
  /\ returned ∅ r !! "email" = Some (VStr "alice@example.com").
Proof.
  intros vd r.
  assert (Hr : r = (Ok (returned ∅ r), snd r)) by run_ok.
  split; [exact Hr|]. split.
  - rewrite (updated_user_fields
               Sample.users_ok Sample.profile_is_valid Sample.profile_save
               Sample.alice vd Sample.db1 _ _ "first_name" Hr) by done.
    vm_compute. reflexivity.
  - rewrite (updated_user_fields
               Sample.users_ok Sample.profile_is_valid Sample.profile_save
               Sample.alice vd Sample.db1 _ _ "email" Hr) by done.
    vm_compute. reflexivity.
Defined.

(** X21 on an input: a manager is made a customer again. *)
Lemma staff_flag_survives_role_change_witness :
  let r1 := UserUpdateRoleSerializer.update Sample.ADMIN Sample.MANAGER
              Sample.choices Sample.users_ok Sample.alice
              {[ "role" := "manager" ]} Sample.db1 in
  let r2 := UserUpdateRoleSerializer.update Sample.ADMIN Sample.MANAGER
              Sample.choices Sample.users_ok (returned ∅ r1)
              {[ "role" := "customer" ]} (snd r1) in
  r1 = (Ok (returned ∅ r1), snd r1)
  /\ r2 = (Ok (returned ∅ r2), snd r2)
  /\ returned ∅ r2 !! "is_staff" = Some (VBool true)
  /\ returned ∅ r2 !! "role" = Some (VStr "customer").
Proof.
  intros r1 r2.
  assert (H1 : r1 = (Ok (returned ∅ r1), snd r1)) by run_ok.
  assert (H2 : r2 = (Ok (returned ∅ r2), snd r2)) by run_ok.
  split; [exact H1|]. split; [exact H2|].
  exact (proj2 (staff_flag_survives_role_change
                  Sample.ADMIN Sample.MANAGER Sample.choices Sample.users_ok
                  Sample.alice {[ "role" := "manager" ]}
                  {[ "role" := "customer" ]} "manager" "customer"
                  Sample.db1 _ _ _ _
                  (lookup_singleton_eq _ _) (lookup_singleton_eq _ _)
                  (or_intror eq_refl) H1 H2)).
Defined.
